(** * das/local_disk_das.go: the single-node Data Availability Service

    A shallow embedding of [das/local_disk_das.go].  The file is glue
    between collaborators that live in other packages (BLS signatures,
    Keccak, the storage back ends, the key files, the L1 client), so the
    embedding is parameterised by them: their types and functions are the
    fields of two type classes, and every statement below holds for all of
    their instances.  Calls that reach outside the process thread an
    abstract [World] and are recorded in a call log, so that "the back end
    was not invoked" can be stated. *)

From Stdlib Require Import List ZArith String Bool Lia.
From Stdlib.Strings Require Import Byte.
Import ListNotations.
Local Open Scope string_scope.
Local Open Scope list_scope.

(** ** Byte slices *)

Definition bytes := list byte.

(** [bytes.Equal]: same length and same contents; a nil slice equals an
    empty one, which lists give for free. *)
Fixpoint bytes_Equal (a b : bytes) : bool :=
  match a, b with
  | [], [] => true
  | x :: a', y :: b' => Byte.eqb x y && bytes_Equal a' b'
  | _, _ => false
  end.

(** [var dst [n]byte; copy(dst[:], src)]: the first [min n (len src)] bytes
    of [src] over a zeroed array of [n] bytes. *)
Definition copy_array (n : nat) (src : bytes) : bytes :=
  firstn n src ++ repeat x00 (n - List.length src).

(** ** Go errors and two-valued returns *)

Inductive error : Type :=
| errors_New (text : string)                      (* errors.New, fmt.Errorf without %w *)
| fmt_Errorf_w (text : string) (wrapped : error). (* fmt.Errorf("...%w", err) *)

(** [(x, nil)] or [(nil, err)]. *)
Inductive result (A : Type) : Type :=
| Ok (a : A)
| Err (e : error).
Arguments Ok {A} a.
Arguments Err {A} e.

Definition is_Err {A} (r : result A) : bool :=
  match r with Ok _ => false | Err _ => true end.

(** line 26 *)
Definition ErrDasKeysetNotFound : error := errors_New "no such keyset".

(** lines 28-47: an int64 with three named values. *)
Definition ExpirationPolicy : Type := Z.
Definition KeepForever : ExpirationPolicy := 0%Z.
Definition DiscardAfterArchiveTimeout : ExpirationPolicy := 1%Z.
Definition DiscardAfterDataTimeout : ExpirationPolicy := 2%Z.

Definition ExpirationPolicy_String (ep : ExpirationPolicy) : result string :=
  if Z.eqb ep KeepForever then Ok "KeepForever"
  else if Z.eqb ep DiscardAfterArchiveTimeout then
    Ok "DiscardAfterArchiveTimeout"
  else if Z.eqb ep DiscardAfterDataTimeout then Ok "DiscardAfterDataTimeout"
  else Err (errors_New "unknown Expiration Policy").

(** ** State passing *)

Definition M (S A : Type) : Type := S -> A * S.

Definition ret {S A} (a : A) : M S A := fun s => (a, s).

Definition bind {S A B} (c : M S A) (k : A -> M S B) : M S B :=
  fun s => let (a, s') := c s in k a s'.

(** [x, err := f(...); if err != nil { return nil, err }] *)
Definition try_bind {S A B} (c : M S (result A)) (k : A -> M S (result B))
  : M S (result B) :=
  bind c (fun r => match r with Ok a => k a | Err e => ret (Err e) end).

(** [err = f(...); if err != nil { return nil, err }] *)
Definition check_bind {S B} (c : M S (option error)) (k : M S (result B))
  : M S (result B) :=
  bind c (fun r => match r with None => k | Some e => ret (Err e) end).

Declare Scope go_scope.
Delimit Scope go_scope with go.
Notation "x <- c ;; k" := (bind c (fun x => k))
  (at level 100, c at next level, right associativity) : go_scope.
Notation "'try' x <- c ;; k" := (try_bind c (fun x => k))
  (at level 100, x name, c at next level, right associativity) : go_scope.
Notation "'check' c ;; k" := (check_bind c k)
  (at level 100, c at next level, right associativity) : go_scope.
Open Scope go_scope.

(** ** Collaborators: types *)

Class ExternTypes : Type := {
  World : Type;                  (* disks, networks, the L1 chain *)
  context_Context : Type;        (* context.Context *)
  PrivateKey : Type;             (* blsSignatures.PrivateKey *)
  PublicKey : Type;              (* blsSignatures.PublicKey *)
  Signature : Type;              (* blsSignatures.Signature *)
  Address : Type;                (* common.Address *)
  S3Config : Type;               (* genericconf.S3Config *)
  RedisConfig : Type;
  BigCacheConfig : Type;
  L1Interface : Type;            (* arbutil.L1Interface *)
  SequencerInboxCaller : Type;   (* bridgegen.SequencerInboxCaller *)
  BatchPosterVerifier : Type
}.

Section DataModel.
Context {T : ExternTypes}.

(** lines 61-63 *)
Record LocalConfig : Type := { DataDir : string }.

(** lines 49-59 *)
Record StorageConfig : Type := {
  KeyDir : string;
  PrivKey : string;
  LocalConfig_ : LocalConfig;
  DiscardAfterTimeout : bool;
  S3Config_ : S3Config;
  RedisConfig_ : RedisConfig;
  BigCacheConfig_ : BigCacheConfig;
  AllowGenerateKeys : bool;
  StorageType : string
}.

(** The fields of [DataAvailabilityConfig] that [NewDAS] reads. *)
Record DataAvailabilityConfig : Type := {
  DASConfig : StorageConfig;
  L1NodeURL : string;
  SequencerInboxAddress : string
}.

(** arbstate.DataAvailabilityCertificate; [Sig] is [None] until signed. *)
Record DataAvailabilityCertificate : Type := {
  KeysetHash : bytes;   (* [32]byte *)
  DataHash : bytes;     (* [32]byte *)
  Timeout : Z;          (* uint64 *)
  SignersMask : Z;      (* uint64 *)
  Sig : option Signature
}.

(** arbstate.DataAvailabilityKeyset *)
Record DataAvailabilityKeyset : Type := {
  AssumedHonest : Z;
  PubKeys : list PublicKey
}.

(** The [StorageService] interface: a value of it carries its methods.
    Each method acts on the world outside the process. *)
Record StorageService : Type := {
  GetByHash_ : context_Context -> bytes -> M World (result bytes);
  Put_ : context_Context -> bytes -> Z -> M World (option error);
  Sync_ : context_Context -> M World (option error);
  Close_ : context_Context -> M World (option error);
  HealthCheck_ : context_Context -> M World (option error)
}.

(** lines 84-91 *)
Record DAS : Type := {
  config : StorageConfig;
  privKey : PrivateKey;
  keysetHash : bytes;   (* [32]byte *)
  keysetBytes : bytes;
  storageService : StorageService;
  bpVerifier : option BatchPosterVerifier
}.

(** Calls that leave the process, each with what it returned, in the order
    they were made. *)
Inductive Call : Type :=
| CallPut (message : bytes) (timeout : Z) (r : option error)
| CallSync (r : option error)
| CallGetByHash (hash : bytes) (r : result bytes)
| CallHealthCheck (r : option error)
| CallIsBatchPoster (addr : Address) (r : result bool)
| CallReadKeysFromFile (dir : string) (r : result (PublicKey * PrivateKey))
| CallGenerateAndStoreKeys (dir : string) (r : result (PublicKey * PrivateKey))
| CallNewDBStorageService (r : result StorageService)
| CallNewS3StorageService (r : result StorageService)
| CallNewRedisStorageService (r : result StorageService)
| CallNewBigCacheStorageService (r : result StorageService)
| CallDial (url : string) (r : result L1Interface).

(** What a constructor runs against. *)
Record Sys : Type := {
  world : World;
  calls : list Call;
  closers : list StorageService   (* goroutines waiting on ctx.Done() *)
}.

(** What a method of [*DAS] runs against: the receiver's struct and the
    rest. *)
Record Machine : Type := {
  self : DAS;
  sys : Sys
}.
End DataModel.

(** ** Collaborators: functions

    Pure ones are functions; the ones that read or write files, talk to a
    storage service or to the L1 node act on [World]. *)

Class Extern {T : ExternTypes} : Type := {
  (* crypto, blsSignatures, arbstate *)
  Keccak256 : bytes -> bytes;
  SignMessage : PrivateKey -> bytes -> result Signature;
  PublicKeyFromPrivateKey : PrivateKey -> result PublicKey;
  VerifySignature : Signature -> bytes -> PublicKey -> bool;
  SerializeSignableFields : DataAvailabilityCertificate -> bytes;
  Keyset_Serialize : DataAvailabilityKeyset -> result bytes;
  Keyset_Hash : DataAvailabilityKeyset -> result bytes;
  (* package das, other files *)
  DasRecoverSigner : bytes -> Z -> bytes -> result Address;
  DecodeBase64BLSPrivateKey : bytes -> result PrivateKey;
  ReadKeysFromFile : string -> M World (result (PublicKey * PrivateKey));
  GenerateAndStoreKeys : string -> M World (result (PublicKey * PrivateKey));
  NewBatchPosterVerifier : SequencerInboxCaller -> BatchPosterVerifier;
  IsBatchPoster :
    BatchPosterVerifier -> context_Context -> Address -> M World (result bool);
  OptionalAddressFromString : string -> result (option Address);
  NewLocalDiskStorageService : string -> StorageService;
  NewDBStorageService :
    context_Context -> string -> bool -> M World (result StorageService);
  NewS3StorageService : S3Config -> bool -> M World (result StorageService);
  NewRedisStorageService :
    RedisConfig -> StorageService -> M World (result StorageService);
  NewBigCacheStorageService :
    BigCacheConfig -> StorageService -> M World (result StorageService);
  (* os, ethclient, bridgegen *)
  os_IsNotExist : error -> bool;
  ethclient_Dial : string -> M World (result L1Interface);
  NewSequencerInboxCaller : Address -> L1Interface -> result SequencerInboxCaller
}.

Section Program.
Context {T : ExternTypes} {X : Extern}.

(** *** Leaving the process *)

(** Run a collaborator on the world and note the call. *)
Definition extern {A} (c : A -> Call) (f : M World A) : M Sys A :=
  fun s =>
    let (a, w) := f (world s) in
    (a, {| world := w; calls := calls s ++ [c a]; closers := closers s |}).

(** [go func() { <-ctx.Done(); _ = storageService.Close(...) }()] *)
Definition go_close_on_done (ss : StorageService) : M Sys unit :=
  fun s =>
    (tt, {| world := world s; calls := calls s; closers := closers s ++ [ss] |}).

(** A method of [*DAS] using the rest of the system. *)
Definition lift {A} (c : M Sys A) : M Machine A :=
  fun m => let (a, s) := c (sys m) in (a, {| self := self m; sys := s |}).

(** [d.f]: read a field through the receiver. *)
Definition rd {A} (f : DAS -> A) : M Machine A :=
  fun m => (f (self m), m).

(** *** lines 243-282 *)

(** The zero value [&arbstate.DataAvailabilityCertificate{}]. *)
Definition zero_certificate : DataAvailabilityCertificate :=
  {| KeysetHash := repeat x00 32;
     DataHash := repeat x00 32;
     Timeout := 0;
     SignersMask := 0;
     Sig := None |}.

Definition set_DataHash (c : DataAvailabilityCertificate) (h : bytes) :=
  {| KeysetHash := KeysetHash c; DataHash := h; Timeout := Timeout c;
     SignersMask := SignersMask c; Sig := Sig c |}.
Definition set_Timeout (c : DataAvailabilityCertificate) (t : Z) :=
  {| KeysetHash := KeysetHash c; DataHash := DataHash c; Timeout := t;
     SignersMask := SignersMask c; Sig := Sig c |}.
Definition set_SignersMask (c : DataAvailabilityCertificate) (m : Z) :=
  {| KeysetHash := KeysetHash c; DataHash := DataHash c; Timeout := Timeout c;
     SignersMask := m; Sig := Sig c |}.
Definition set_Sig (c : DataAvailabilityCertificate) (s : option Signature) :=
  {| KeysetHash := KeysetHash c; DataHash := DataHash c; Timeout := Timeout c;
     SignersMask := SignersMask c; Sig := s |}.
Definition set_KeysetHash (c : DataAvailabilityCertificate) (h : bytes) :=
  {| KeysetHash := h; DataHash := DataHash c; Timeout := Timeout c;
     SignersMask := SignersMask c; Sig := Sig c |}.

(** lines 244-256: [if d.bpVerifier != nil { ... }] *)
Definition Store_authorize (ctx : context_Context) (message : bytes)
    (timeout : Z) (sig : bytes) : M Machine (result unit) :=
  v <- rd bpVerifier ;;
  match v with
  | Some verifier =>
      try actualSigner <- ret (DasRecoverSigner message timeout sig) ;;
      try isBatchPoster <-
        lift (extern (CallIsBatchPoster actualSigner)
                     (IsBatchPoster verifier ctx actualSigner)) ;;
      if negb isBatchPoster
      then ret (Err (errors_New "store request not properly signed"))
      else ret (Ok tt)
  | None => ret (Ok tt)
  end.

(** lines 258-262: the certificate as it stands when it is serialized for
    signing. *)
Definition Store_unsigned (message : bytes) (timeout : Z)
  : DataAvailabilityCertificate :=
  let c := zero_certificate in
  let c := set_DataHash c (copy_array 32 (Keccak256 message)) in
  let c := set_Timeout c timeout in
  set_SignersMask c 1.

Definition Store (ctx : context_Context) (message : bytes) (timeout : Z)
    (sig : bytes) : M Machine (result DataAvailabilityCertificate) :=
  try _ <- Store_authorize ctx message timeout sig ;;
  let c := Store_unsigned message timeout in
  let fields := SerializeSignableFields c in
  key <- rd privKey ;;
  try s <- ret (SignMessage key fields) ;;
  let c := set_Sig c (Some s) in
  ss <- rd storageService ;;
  check lift (extern (CallPut message timeout) (Put_ ss ctx message timeout)) ;;
  ss <- rd storageService ;;
  check lift (extern CallSync (Sync_ ss ctx)) ;;
  h <- rd keysetHash ;;
  let c := set_KeysetHash c h in
  ret (Ok c).

(** *** lines 284-309 *)

Definition GetByHash (ctx : context_Context) (hash : bytes)
  : M Machine (result bytes) :=
  ss <- rd storageService ;;
  lift (extern (CallGetByHash hash) (GetByHash_ ss ctx hash)).

Definition KeysetFromHash (ctx : context_Context) (ksHash : bytes)
  : M Machine (result bytes) :=
  h <- rd keysetHash ;;
  if bytes_Equal ksHash h
  then (b <- rd keysetBytes ;; ret (Ok b))
  else
    r <- GetByHash ctx ksHash ;;
    match r with
    | Ok contents => ret (Ok contents)
    | Err _ => ret (Err ErrDasKeysetNotFound)
    end.

Definition CurrentKeysetBytes (ctx : context_Context)
  : M Machine (result bytes) :=
  b <- rd keysetBytes ;; ret (Ok b).

Definition HealthCheck (ctx : context_Context) : M Machine (option error) :=
  ss <- rd storageService ;;
  lift (extern CallHealthCheck (HealthCheck_ ss ctx)).

(** *** lines 195-241 *)

Definition NewStorageServiceFromStorageConfig (ctx : context_Context)
    (config : StorageConfig) : M Sys (result StorageService) :=
  let t := StorageType config in
  if String.eqb t "" || String.eqb t "files" then
    ret (Ok (NewLocalDiskStorageService (DataDir (LocalConfig_ config))))
  else if String.eqb t "db" then
    try storageService <-
      extern CallNewDBStorageService
        (NewDBStorageService ctx (DataDir (LocalConfig_ config))
           (DiscardAfterTimeout config)) ;;
    _ <- go_close_on_done storageService ;;
    ret (Ok storageService)
  else if String.eqb t "s3" then
    try storageService <-
      extern CallNewS3StorageService
        (NewS3StorageService (S3Config_ config) (DiscardAfterTimeout config)) ;;
    ret (Ok storageService)
  else if String.eqb t "redis" then
    try s3StorageService <-
      extern CallNewS3StorageService
        (NewS3StorageService (S3Config_ config) (DiscardAfterTimeout config)) ;;
    try storageService <-
      extern CallNewRedisStorageService
        (NewRedisStorageService (RedisConfig_ config) s3StorageService) ;;
    ret (Ok storageService)
  else if String.eqb t "bigCache" then
    try s3StorageService <-
      extern CallNewS3StorageService
        (NewS3StorageService (S3Config_ config) (DiscardAfterTimeout config)) ;;
    try redisStorageService <-
      extern CallNewRedisStorageService
        (NewRedisStorageService (RedisConfig_ config) s3StorageService) ;;
    try storageService <-
      extern CallNewBigCacheStorageService
        (NewBigCacheStorageService (BigCacheConfig_ config)
           redisStorageService) ;;
    ret (Ok storageService)
  else
    ret (Err (errors_New
                (String.append "Storage service type not recognized: " t))).

(** *** lines 129-193 *)

(** lines 135-158: where the signing key comes from. *)
Definition NewDAS_privKey (config : StorageConfig) : M Sys (result PrivateKey) :=
  if negb (Nat.eqb (String.length (PrivKey config)) 0) then
    match DecodeBase64BLSPrivateKey (list_byte_of_string (PrivKey config)) with
    | Ok privKey => ret (Ok privKey)
    | Err err => ret (Err (fmt_Errorf_w "'priv-key' was invalid: " err))
    end
  else
    r <- extern (CallReadKeysFromFile (KeyDir config))
           (ReadKeysFromFile (KeyDir config)) ;;
    match r with
    | Ok (_, privKey) => ret (Ok privKey)
    | Err err =>
        if os_IsNotExist err then
          if AllowGenerateKeys config then
            try kp <-
              extern (CallGenerateAndStoreKeys (KeyDir config))
                (GenerateAndStoreKeys (KeyDir config)) ;;
            ret (Ok (snd kp))
          else
            ret (Err (errors_New
                        (String.append "Required BLS keypair did not exist at "
                           (KeyDir config))))
        else ret (Err err)
    end.

(** lines 160-193: the keyset and the struct, from the key. *)
Definition NewDAS_build (config : StorageConfig)
    (seqInboxCaller : option SequencerInboxCaller)
    (storageService : StorageService) (key : PrivateKey) : result DAS :=
  match PublicKeyFromPrivateKey key with
  | Err err => Err err
  | Ok publicKey =>
      let keyset := {| AssumedHonest := 1; PubKeys := [publicKey] |} in
      match Keyset_Serialize keyset with
      | Err err => Err err
      | Ok ksBuf =>
          match Keyset_Hash keyset with
          | Err err => Err err
          | Ok ksHashBuf =>
              let ksHash := copy_array 32 ksHashBuf in
              let verifier :=
                match seqInboxCaller with
                | Some caller => Some (NewBatchPosterVerifier caller)
                | None => None
                end in
              Ok {| config := config;
                    privKey := key;
                    keysetHash := ksHash;
                    keysetBytes := ksBuf;
                    storageService := storageService;
                    bpVerifier := verifier |}
          end
      end
  end.

Definition NewDASWithSeqInboxCaller (ctx : context_Context)
    (config : StorageConfig) (seqInboxCaller : option SequencerInboxCaller)
    (storageService : StorageService) : M Sys (result DAS) :=
  try key <- NewDAS_privKey config ;;
  ret (NewDAS_build config seqInboxCaller storageService key).

(** lines 115-127 *)
Definition NewDASWithL1Info (ctx : context_Context) (config : StorageConfig)
    (l1client : L1Interface) (seqInboxAddress : Address)
    (storageService : StorageService) : M Sys (result DAS) :=
  try seqInboxCaller <- ret (NewSequencerInboxCaller seqInboxAddress l1client) ;;
  NewDASWithSeqInboxCaller ctx config (Some seqInboxCaller) storageService.

(** lines 93-113 *)
Definition NewDAS (ctx : context_Context) (config : DataAvailabilityConfig)
  : M Sys (result DAS) :=
  try storageService <-
    NewStorageServiceFromStorageConfig ctx (DASConfig config) ;;
  if String.eqb (L1NodeURL config) "none" then
    NewDASWithSeqInboxCaller ctx (DASConfig config) None storageService
  else
    try l1client <-
      extern (CallDial (L1NodeURL config)) (ethclient_Dial (L1NodeURL config)) ;;
    try seqInboxAddress <-
      ret (OptionalAddressFromString (SequencerInboxAddress config)) ;;
    match seqInboxAddress with
    | None =>
        NewDASWithSeqInboxCaller ctx (DASConfig config) None storageService
    | Some a =>
        NewDASWithL1Info ctx (DASConfig config) l1client a storageService
    end.

End Program.

(** ** A node in service

    The requests a running node answers, one after the other, while the
    world outside keeps changing under it. *)

Section Service.
Context {T : ExternTypes} {X : Extern}.

Inductive Request : Type :=
| ReqStore (ctx : context_Context) (message : bytes) (timeout : Z) (sig : bytes)
| ReqGetByHash (ctx : context_Context) (hash : bytes)
| ReqKeysetFromHash (ctx : context_Context) (ksHash : bytes)
| ReqCurrentKeysetBytes (ctx : context_Context)
| ReqHealthCheck (ctx : context_Context).

Inductive Reply : Type :=
| RepCertificate (r : result DataAvailabilityCertificate)
| RepBytes (r : result bytes)
| RepError (r : option error).

Definition serve (q : Request) : M Machine Reply :=
  match q with
  | ReqStore ctx message timeout sig =>
      r <- Store ctx message timeout sig ;; ret (RepCertificate r)
  | ReqGetByHash ctx hash => r <- GetByHash ctx hash ;; ret (RepBytes r)
  | ReqKeysetFromHash ctx ksHash =>
      r <- KeysetFromHash ctx ksHash ;; ret (RepBytes r)
  | ReqCurrentKeysetBytes ctx => r <- CurrentKeysetBytes ctx ;; ret (RepBytes r)
  | ReqHealthCheck ctx => r <- HealthCheck ctx ;; ret (RepError r)
  end.

Inductive Event : Type :=
| Serve (q : Request)
| Outside (f : World -> World).   (* anything else acting on the world *)

Definition outside (f : World -> World) (m : Machine) : Machine :=
  {| self := self m;
     sys := {| world := f (world (sys m));
               calls := calls (sys m);
               closers := closers (sys m) |} |}.

Fixpoint run (evs : list Event) (m : Machine) : list Reply * Machine :=
  match evs with
  | [] => ([], m)
  | Serve q :: evs' =>
      let (rep, m1) := serve q m in
      let (reps, m2) := run evs' m1 in
      (rep :: reps, m2)
  | Outside f :: evs' => run evs' (outside f m)
  end.

(** A storage service that answers every [GetByHash] with the same bytes. *)
Definition answering_store (b : bytes) : StorageService := {|
  GetByHash_ := fun _ _ w => (Ok b, w);
  Put_ := fun _ _ _ w => (None, w);
  Sync_ := fun _ w => (None, w);
  Close_ := fun _ w => (None, w);
  HealthCheck_ := fun _ w => (None, w)
|}.

Definition with_storageService (d : DAS) (ss : StorageService) : DAS :=
  {| config := config d;
     privKey := privKey d;
     keysetHash := keysetHash d;
     keysetBytes := keysetBytes d;
     storageService := ss;
     bpVerifier := bpVerifier d |}.

End Service.

(** ** The storage chains as the specification lists them

    The five compositions and the configuration name that selects each,
    written from the specification's words, for comparison with
    [NewStorageServiceFromStorageConfig]. *)

Section SpecChains.
Context {T : ExternTypes} {X : Extern}.

Inductive spec_Chain : Type :=
| DiskOnly
| LocalDatabaseOnly
| ObjectStoreOnly
| CacheOverObjectStore
| MemoryCacheOverCacheOverObjectStore.

Definition spec_chain_names : list string :=
  ["files"; "db"; "s3"; "redis"; "bigCache"].

Definition spec_chain_of_name (name : string) : option spec_Chain :=
  if String.eqb name "files" then Some DiskOnly
  else if String.eqb name "db" then Some LocalDatabaseOnly
  else if String.eqb name "s3" then Some ObjectStoreOnly
  else if String.eqb name "redis" then Some CacheOverObjectStore
  else if String.eqb name "bigCache" then
    Some MemoryCacheOverCacheOverObjectStore
  else None.

Definition spec_disk (config : StorageConfig) : StorageService :=
  NewLocalDiskStorageService (DataDir (LocalConfig_ config)).

Definition spec_local_database (ctx : context_Context) (config : StorageConfig)
  : M Sys (result StorageService) :=
  extern CallNewDBStorageService
    (NewDBStorageService ctx (DataDir (LocalConfig_ config))
       (DiscardAfterTimeout config)).

Definition spec_object_store (config : StorageConfig)
  : M Sys (result StorageService) :=
  extern CallNewS3StorageService
    (NewS3StorageService (S3Config_ config) (DiscardAfterTimeout config)).

Definition spec_cache_over (config : StorageConfig) (inner : StorageService)
  : M Sys (result StorageService) :=
  extern CallNewRedisStorageService
    (NewRedisStorageService (RedisConfig_ config) inner).

Definition spec_memory_cache_over (config : StorageConfig)
    (inner : StorageService) : M Sys (result StorageService) :=
  extern CallNewBigCacheStorageService
    (NewBigCacheStorageService (BigCacheConfig_ config) inner).

(** Inner tier first; the first constructor that fails ends the
    construction with its error.  The local database is closed when the
    parent context is done. *)
Definition spec_build_chain (ctx : context_Context) (config : StorageConfig)
    (c : spec_Chain) : M Sys (result StorageService) :=
  match c with
  | DiskOnly => ret (Ok (spec_disk config))
  | LocalDatabaseOnly =>
      try db <- spec_local_database ctx config ;;
      _ <- go_close_on_done db ;;
      ret (Ok db)
  | ObjectStoreOnly => spec_object_store config
  | CacheOverObjectStore =>
      try store <- spec_object_store config ;;
      spec_cache_over config store
  | MemoryCacheOverCacheOverObjectStore =>
      try store <- spec_object_store config ;;
      try cache <- spec_cache_over config store ;;
      spec_memory_cache_over config cache
  end.

Definition spec_unrecognized (name : string) : error :=
  errors_New (String.append "Storage service type not recognized: " name).

End SpecChains.

(** ** The signed payload as the specification gives it *)

Section SpecPayload.
Context {T : ExternTypes}.



End SpecPayload.

(** ** A small instance of the collaborators

    An in-memory world with toy cryptography, to run the program on
    concrete inputs.  Nothing below is specific to it except the lemmas
    that say so. *)

Module Demo.

Record Disk : Type := {
  blobs : list (bytes * bytes);   (* hash, contents *)
  keyfile : option Z;
  posters : list Z
}.

#[export] Instance types : ExternTypes := {|
  World := Disk;
  context_Context := unit;
  PrivateKey := Z;
  PublicKey := Z;
  Signature := Z * bytes;
  Address := Z;
  S3Config := unit;
  RedisConfig := unit;
  BigCacheConfig := unit;
  L1Interface := unit;
  SequencerInboxCaller := unit;
  BatchPosterVerifier := unit
|}.

Definition byte_of_Z (z : Z) : byte :=
  match Byte.of_N (Z.to_N (z mod 256)) with Some b => b | None => x00 end.

Definition be64 (z : Z) : bytes :=
  map (fun i => byte_of_Z (Z.shiftr z (8 * i))) [7; 6; 5; 4; 3; 2; 1; 0]%Z.

(** 32 bytes out of any input; stands in for Keccak. *)
Definition digest (m : bytes) : bytes := copy_array 32 m.

Definition serialize_keyset (k : DataAvailabilityKeyset) : bytes :=
  be64 (AssumedHonest k) ++ List.concat (map be64 (PubKeys k)).

Fixpoint lookup (h : bytes) (l : list (bytes * bytes)) : option bytes :=
  match l with
  | [] => None
  | (k, v) :: l' => if bytes_Equal h k then Some v else lookup h l'
  end.

Definition not_exist : error := errors_New "file does not exist".
Definition not_found : error := errors_New "not found".

Definition mem_store : StorageService := {|
  GetByHash_ := fun _ h w =>
    match lookup h (blobs w) with
    | Some b => (Ok b, w)
    | None => (Err not_found, w)
    end;
  Put_ := fun _ m _ w =>
    (None, {| blobs := (digest m, m) :: blobs w;
              keyfile := keyfile w; posters := posters w |});
  Sync_ := fun _ w => (None, w);
  Close_ := fun _ w => (None, w);
  HealthCheck_ := fun _ w => (None, w)
|}.

(** A store whose [Put] fails. *)
Definition put_fails (e : error) : StorageService := {|
  GetByHash_ := GetByHash_ mem_store;
  Put_ := fun _ _ _ w => (Some e, w);
  Sync_ := Sync_ mem_store;
  Close_ := Close_ mem_store;
  HealthCheck_ := HealthCheck_ mem_store
|}.

(** A store that accepts [Put] and fails on [Sync]. *)
Definition sync_fails (e : error) : StorageService := {|
  GetByHash_ := GetByHash_ mem_store;
  Put_ := Put_ mem_store;
  Sync_ := fun _ w => (Some e, w);
  Close_ := Close_ mem_store;
  HealthCheck_ := HealthCheck_ mem_store
|}.

#[export] Instance extern : Extern := {|
  Keccak256 := digest;
  SignMessage := fun k m => Ok (k, m);
  PublicKeyFromPrivateKey := fun k => Ok k;
  VerifySignature := fun s m pk => Z.eqb (fst s) pk && bytes_Equal (snd s) m;
  SerializeSignableFields := fun c =>
    DataHash c ++ be64 (Timeout c) ++ be64 (SignersMask c);
  Keyset_Serialize := fun k => Ok (serialize_keyset k);
  Keyset_Hash := fun k => Ok (digest (serialize_keyset k));
  DasRecoverSigner := fun _ _ sig =>
    match sig with
    | [] => Err (errors_New "empty signature")
    | b :: _ => Ok (Z.of_N (Byte.to_N b))
    end;
  DecodeBase64BLSPrivateKey := fun bs =>
    match bs with
    | [] => Err (errors_New "empty key")
    | b :: _ =>
        if Byte.eqb b "!"%byte then Err (errors_New "illegal base64 data")
        else Ok (Z.of_N (Byte.to_N b))
    end;
  ReadKeysFromFile := fun _ w =>
    match keyfile w with
    | Some k => (Ok (k, k), w)
    | None => (Err not_exist, w)
    end;
  GenerateAndStoreKeys := fun _ w =>
    (Ok (7, 7)%Z,
     {| blobs := blobs w; keyfile := Some 7%Z; posters := posters w |});
  NewBatchPosterVerifier := fun _ => tt;
  IsBatchPoster := fun _ _ a w => (Ok (existsb (Z.eqb a) (posters w)), w);
  OptionalAddressFromString := fun s =>
    if String.eqb s "" then Ok None else Ok (Some (Z.of_nat (String.length s)));
  NewLocalDiskStorageService := fun _ => mem_store;
  NewDBStorageService := fun _ _ _ w => (Ok mem_store, w);
  NewS3StorageService := fun _ _ w => (Ok mem_store, w);
  NewRedisStorageService := fun _ inner w => (Ok inner, w);
  NewBigCacheStorageService := fun _ inner w => (Ok inner, w);
  os_IsNotExist := fun e =>
    match e with
    | errors_New t => String.eqb t "file does not exist"
    | _ => false
    end;
  ethclient_Dial := fun _ w => (Ok tt, w);
  NewSequencerInboxCaller := fun _ _ => Ok tt
|}.

Definition disk0 : Disk := {| blobs := []; keyfile := Some 5%Z; posters := [1%Z] |}.

Definition sys0 : Sys := {| world := disk0; calls := []; closers := [] |}.

Definition config0 (storageType privKey : string) (allow : bool)
  : StorageConfig := {|
  KeyDir := "keys";
  PrivKey := privKey;
  LocalConfig_ := {| DataDir := "data" |};
  DiscardAfterTimeout := false;
  S3Config_ := tt;
  RedisConfig_ := tt;
  BigCacheConfig_ := tt;
  AllowGenerateKeys := allow;
  StorageType := storageType
|}.

(** A node with key 5, keyset computed as the constructor does, over the
    given store, with or without a batch-poster verifier. *)
Definition das0 (ss : StorageService) (v : option unit) : DAS := {|
  config := config0 "files" "" false;
  privKey := 5%Z;
  keysetHash := digest (serialize_keyset {| AssumedHonest := 1; PubKeys := [5%Z] |});
  keysetBytes := serialize_keyset {| AssumedHonest := 1; PubKeys := [5%Z] |};
  storageService := ss;
  bpVerifier := v
|}.

Definition machine0 (ss : StorageService) (v : option unit) : Machine :=
  {| self := das0 ss v; sys := sys0 |}.

Definition hello : bytes := list_byte_of_string "hello".

(** A system whose key directory is empty. *)
Definition sys_nokeys : Sys :=
  {| world := {| blobs := []; keyfile := None; posters := [1%Z] |};
     calls := [];
     closers := [] |}.

End Demo.

(** ** The small instance with collaborators that can fail *)

Module Faulty.

Record Faults : Type := {
  sign_fails : bool;     (* SignMessage *)
  pubkey_fails : bool;   (* PublicKeyFromPrivateKey *)
  db_fails : bool;       (* NewDBStorageService *)
  s3_fails : bool;       (* NewS3StorageService *)
  redis_fails : bool;    (* NewRedisStorageService *)
  dial_fails : bool;     (* ethclient.Dial *)
  caller_fails : bool    (* bridgegen.NewSequencerInboxCaller *)
}.

Definition none : Faults := {|
  sign_fails := false; pubkey_fails := false; db_fails := false;
  s3_fails := false; redis_fails := false; dial_fails := false;
  caller_fails := false
|}.

Definition broken : error := errors_New "collaborator failed".

Definition extern (f : Faults) : Extern (T := Demo.types) := {|
  Keccak256 := Keccak256 (Extern := Demo.extern);
  SignMessage := fun k m =>
    if sign_fails f then Err broken
    else SignMessage (Extern := Demo.extern) k m;
  PublicKeyFromPrivateKey := fun k =>
    if pubkey_fails f then Err broken
    else PublicKeyFromPrivateKey (Extern := Demo.extern) k;
  VerifySignature := VerifySignature (Extern := Demo.extern);
  SerializeSignableFields := SerializeSignableFields (Extern := Demo.extern);
  Keyset_Serialize := Keyset_Serialize (Extern := Demo.extern);
  Keyset_Hash := Keyset_Hash (Extern := Demo.extern);
  DasRecoverSigner := DasRecoverSigner (Extern := Demo.extern);
  DecodeBase64BLSPrivateKey :=
    DecodeBase64BLSPrivateKey (Extern := Demo.extern);
  ReadKeysFromFile := ReadKeysFromFile (Extern := Demo.extern);
  GenerateAndStoreKeys := GenerateAndStoreKeys (Extern := Demo.extern);
  NewBatchPosterVerifier := NewBatchPosterVerifier (Extern := Demo.extern);
  IsBatchPoster := IsBatchPoster (Extern := Demo.extern);
  OptionalAddressFromString :=
    OptionalAddressFromString (Extern := Demo.extern);
  NewLocalDiskStorageService :=
    NewLocalDiskStorageService (Extern := Demo.extern);
  NewDBStorageService := fun ctx dir discard w =>
    if db_fails f then (Err broken, w)
    else NewDBStorageService (Extern := Demo.extern) ctx dir discard w;
  NewS3StorageService := fun cfg discard w =>
    if s3_fails f then (Err broken, w)
    else NewS3StorageService (Extern := Demo.extern) cfg discard w;
  NewRedisStorageService := fun cfg inner w =>
    if redis_fails f then (Err broken, w)
    else NewRedisStorageService (Extern := Demo.extern) cfg inner w;
  NewBigCacheStorageService :=
    NewBigCacheStorageService (Extern := Demo.extern);
  os_IsNotExist := os_IsNotExist (Extern := Demo.extern);
  ethclient_Dial := fun url w =>
    if dial_fails f then (Err broken, w)
    else ethclient_Dial (Extern := Demo.extern) url w;
  NewSequencerInboxCaller := fun a l1 =>
    if caller_fails f then Err broken
    else NewSequencerInboxCaller (Extern := Demo.extern) a l1
|}.

Definition daconfig (storageType url addr : string)
  : DataAvailabilityConfig (T := Demo.types) := {|
  DASConfig := Demo.config0 storageType "" false;
  L1NodeURL := url;
  SequencerInboxAddress := addr
|}.

End Faulty.

(** ** Observing a run *)

Section Observing.
Context {T : ExternTypes}.

(** The calls made between two states of the system. *)
Definition new_calls (before after : Sys) : list Call :=
  skipn (List.length (calls before)) (calls after).

Definition is_storage_write (c : Call) : bool :=
  match c with
  | CallPut _ _ _ | CallSync _ => true
  | _ => false
  end.

Definition is_storage_call (c : Call) : bool :=
  match c with
  | CallPut _ _ _ | CallSync _ | CallGetByHash _ _ | CallHealthCheck _ => true
  | _ => false
  end.

End Observing.

(** * Properties *)

(** ** Byte slices *)

Lemma bytes_Equal_refl (a : bytes) : bytes_Equal a a = true.
Proof.
  induction a as [|x a IH]; simpl; [reflexivity|].
  now rewrite IH, (Byte.byte_dec_lb (eq_refl x)).
Qed.

Lemma bytes_Equal_eq (a b : bytes) : bytes_Equal a b = true <-> a = b.
Proof.
  split; [|intros ->; apply bytes_Equal_refl].
  revert b; induction a as [|x a IH]; intros [|y b]; simpl; try discriminate.
  - reflexivity.
  - intros E. apply andb_prop in E as [Exy Eab].
    apply Byte.byte_dec_bl in Exy. f_equal; auto.
Qed.

Lemma bytes_Equal_neq (a b : bytes) : bytes_Equal a b = false <-> a <> b.
Proof.
  rewrite <- bytes_Equal_eq. destruct (bytes_Equal a b); split; congruence.
Qed.

Lemma copy_array_length (n : nat) (src : bytes) :
  List.length (copy_array n src) = n.
Proof.
  unfold copy_array. rewrite length_app, length_firstn, repeat_length. lia.
Qed.

Lemma copy_array_exact (n : nat) (src : bytes) :
  List.length src = n -> copy_array n src = src.
Proof.
  intros <-. unfold copy_array.
  now rewrite firstn_all, Nat.sub_diag, app_nil_r.
Qed.

Section RunLemmas.
Context {T : ExternTypes} {X : Extern}.

Lemma new_calls_app (s s' : Sys) (l : list Call) :
  calls s' = calls s ++ l -> new_calls s s' = l.
Proof.
  intros E. unfold new_calls. rewrite E, skipn_app, skipn_all, Nat.sub_diag.
  reflexivity.
Qed.

Lemma new_calls_refl (s : Sys) : new_calls s s = [].
Proof. apply new_calls_app. now rewrite app_nil_r. Qed.

End RunLemmas.

(** ** How a run of [Store] unfolds *)

Ltac go_unfold :=
  unfold try_bind, check_bind, bind, ret, rd, lift, extern, go_close_on_done
    in *.

Ltac go_case :=
  match goal with
  | E : (_, _) = (_, _) |- _ => inversion E; subst; clear E
  | E : Ok _ = Ok _ |- _ => inversion E; subst; clear E
  | E : Err _ = Err _ |- _ => inversion E; subst; clear E
  | E : Ok _ = Err _ |- _ => discriminate E
  | E : Err _ = Ok _ |- _ => discriminate E
  | E : context [match ?x with _ => _ end] |- _ => destruct x eqn:?
  | |- context [match ?x with _ => _ end] => destruct x eqn:?
  end.

Ltac go_run := go_unfold; simpl in *; repeat (go_case; simpl in *).

Section StoreRun.
Context {T : ExternTypes} {X : Extern}.

Lemma Store_authorize_run ctx message timeout sig st r st' :
  Store_authorize ctx message timeout sig st = (r, st') ->
  self st' = self st /\ closers (sys st') = closers (sys st) /\
  match bpVerifier (self st) with
  | None => r = Ok tt /\ st' = st
  | Some v =>
      match DasRecoverSigner message timeout sig with
      | Err e => r = Err e /\ st' = st
      | Ok a =>
          let (rb, w) := IsBatchPoster v ctx a (world (sys st)) in
          world (sys st') = w /\
          calls (sys st') = calls (sys st) ++ [CallIsBatchPoster a rb] /\
          r = match rb with
              | Err e => Err e
              | Ok true => Ok tt
              | Ok false => Err (errors_New "store request not properly signed")
              end
      end
  end.
Proof.
  unfold Store_authorize. intros E. go_run; try discriminate; auto.
Qed.

Lemma Store_run ctx message timeout sig st r st' :
  Store ctx message timeout sig st = (r, st') ->
  exists ra st1,
    Store_authorize ctx message timeout sig st = (ra, st1) /\
    match ra with
    | Err e => r = Err e /\ st' = st1
    | Ok _ =>
        match SignMessage (privKey (self st1))
                (SerializeSignableFields (Store_unsigned message timeout)) with
        | Err e => r = Err e /\ st' = st1
        | Ok s =>
            let ss := storageService (self st1) in
            let (rp, w2) := Put_ ss ctx message timeout (world (sys st1)) in
            self st' = self st1 /\ closers (sys st') = closers (sys st1) /\
            match rp with
            | Some e =>
                r = Err e /\ world (sys st') = w2 /\
                calls (sys st') =
                  calls (sys st1) ++ [CallPut message timeout (Some e)]
            | None =>
                let (rs, w3) := Sync_ ss ctx w2 in
                world (sys st') = w3 /\
                calls (sys st') =
                  calls (sys st1) ++ [CallPut message timeout None; CallSync rs] /\
                r = match rs with
                    | Some e => Err e
                    | None =>
                        Ok (set_KeysetHash
                              (set_Sig (Store_unsigned message timeout) (Some s))
                              (keysetHash (self st1)))
                    end
            end
        end
    end.
Proof.
  unfold Store. intros E.
  destruct (Store_authorize ctx message timeout sig st) as [ra st1] eqn:Ea.
  exists ra, st1. split; [reflexivity|].
  go_run; rewrite <- ?app_assoc; auto.
Qed.

End StoreRun.

Lemma Store_authorize_calls {T : ExternTypes} {X : Extern}
    ctx message timeout sig st r st' :
  Store_authorize ctx message timeout sig st = (r, st') ->
  self st' = self st /\
  exists la,
    calls (sys st') = calls (sys st) ++ la /\
    forallb (fun c => negb (is_storage_call c)) la = true.
Proof.
  intros E. apply Store_authorize_run in E as (Hself & _ & E).
  split; [exact Hself|].
  destruct (bpVerifier (self st)) as [v|].
  - destruct (DasRecoverSigner message timeout sig) as [a|e].
    + destruct (IsBatchPoster v ctx a (world (sys st))) as [rb w].
      destruct E as (_ & Hc & _). now exists [CallIsBatchPoster a rb].
    + destruct E as [_ ->]. exists []. now rewrite app_nil_r.
  - destruct E as [_ ->]. exists []. now rewrite app_nil_r.
Qed.

(** A successful [Store] returns the signed certificate with the keyset
    hash attached. *)
Lemma Store_ok {T : ExternTypes} {X : Extern} ctx message timeout sig st c :
  fst (Store ctx message timeout sig st) = Ok c ->
  exists s,
    SignMessage (privKey (self st))
      (SerializeSignableFields (Store_unsigned message timeout)) = Ok s /\
    c = set_KeysetHash (set_Sig (Store_unsigned message timeout) (Some s))
          (keysetHash (self st)).
Proof.
  intros E.
  destruct (Store ctx message timeout sig st) as [r st'] eqn:Es.
  simpl in E. subst r.
  apply Store_run in Es as (ra & st1 & Ea & Es).
  apply Store_authorize_run in Ea as (Hself & _ & _). rewrite Hself in Es.
  destruct ra as [[]|e]; [|destruct Es; discriminate].
  destruct (SignMessage _ _) as [s|e] eqn:Hs; [|destruct Es; discriminate].
  cbv zeta in Es.
  destruct (Put_ _ ctx message timeout _) as [[e|] w2];
    [destruct Es as (_ & _ & Hr & _); discriminate|].
  destruct (Sync_ _ ctx w2) as [[e|] w3];
    destruct Es as (_ & _ & _ & _ & Hr); [discriminate|].
  injection Hr as Hc. eauto.
Qed.

(** What [NewDASWithSeqInboxCaller] puts in the struct. *)
Lemma NewDASWithSeqInboxCaller_ok {T : ExternTypes} {X : Extern}
    ctx cfg caller ss s0 d :
  fst (NewDASWithSeqInboxCaller ctx cfg caller ss s0) = Ok d ->
  exists pk h,
    PublicKeyFromPrivateKey (privKey d) = Ok pk /\
    Keyset_Serialize {| AssumedHonest := 1; PubKeys := [pk] |}
      = Ok (keysetBytes d) /\
    Keyset_Hash {| AssumedHonest := 1; PubKeys := [pk] |} = Ok h /\
    keysetHash d = copy_array 32 h /\
    config d = cfg /\ storageService d = ss /\
    bpVerifier d = option_map NewBatchPosterVerifier caller.
Proof.
  unfold NewDASWithSeqInboxCaller, NewDAS_build. go_unfold. intros Hnew.
  destruct (NewDAS_privKey cfg s0) as [[k|e] s1]; simpl in Hnew;
    [|discriminate].
  destruct (PublicKeyFromPrivateKey k) as [pk|e] eqn:Epk; [|discriminate].
  destruct (Keyset_Serialize _) as [ksBuf|e] eqn:Es; [|discriminate].
  destruct (Keyset_Hash _) as [h|e] eqn:Eh; [|discriminate].
  injection Hnew as <-. simpl.
  exists pk, h. repeat split; auto.
Qed.

(** ** Store and the storage back end *)

(** C1: whenever the storage service's [Put], or the [Sync] after it,
    returns an error during a run of [Store], the run returns that very
    error and no certificate; and a run that returns a certificate ended
    with a [Put] of the message and a [Sync] that both returned nil. *)
Theorem Store_backend_error {T : ExternTypes} {X : Extern}
    ctx message timeout sig st r st' :
  Store ctx message timeout sig st = (r, st') ->
  (forall m t e,
      In (CallPut m t (Some e)) (new_calls (sys st) (sys st')) -> r = Err e) /\
  (forall e,
      In (CallSync (Some e)) (new_calls (sys st) (sys st')) -> r = Err e) /\
  (forall c,
      r = Ok c ->
      exists pre,
        new_calls (sys st) (sys st') =
          pre ++ [CallPut message timeout None; CallSync None] /\
        forallb (fun c => negb (is_storage_call c)) pre = true).
Proof.
  intros E. apply Store_run in E as (ra & st1 & Ea & E).
  apply Store_authorize_calls in Ea as (_ & la & Hla & Hno).
  assert (Hin : forall c, In c la -> is_storage_call c = false).
  { intros c Hc. rewrite forallb_forall in Hno.
    specialize (Hno c Hc). now destruct (is_storage_call c). }
  assert (Hsame : st' = st1 ->
            new_calls (sys st) (sys st') = la) by
    (intros ->; now apply new_calls_app).
  destruct ra as [[]|e0].
  2:{ destruct E as [-> Hst]. rewrite (Hsame Hst).
      repeat split; try discriminate; intros; exfalso;
        match goal with Hc : In _ la |- _ => apply Hin in Hc; discriminate Hc end. }
  destruct (SignMessage _ _) as [s|e0].
  2:{ destruct E as [-> Hst]. rewrite (Hsame Hst).
      repeat split; try discriminate; intros; exfalso;
        match goal with Hc : In _ la |- _ => apply Hin in Hc; discriminate Hc end. }
  cbv zeta in E.
  destruct (Put_ _ ctx message timeout _) as [[e1|] w2].
  - destruct E as (_ & _ & -> & _ & Hc).
    rewrite Hla, <- app_assoc in Hc. rewrite (new_calls_app _ _ _ Hc).
    repeat split; try discriminate.
    + intros m t e [Hi|[Hi|[]]]%in_app_or; [apply Hin in Hi; discriminate|].
      now inversion Hi.
    + intros e [Hi|[Hi|[]]]%in_app_or; [apply Hin in Hi|]; discriminate.
  - destruct (Sync_ _ ctx w2) as [rs w3].
    destruct E as (_ & _ & _ & Hc & ->).
    rewrite Hla, <- app_assoc in Hc. rewrite (new_calls_app _ _ _ Hc).
    repeat split.
    + intros m t e [Hi|[Hi|[Hi|[]]]]%in_app_or;
        [apply Hin in Hi|..]; discriminate.
    + intros e [Hi|[Hi|[Hi|[]]]]%in_app_or;
        [apply Hin in Hi; discriminate|discriminate|].
      now inversion Hi.
    + intros c Hr. destruct rs; [discriminate|]. now exists la.
Qed.

(** A store whose [Put] fails: the caller gets that error. *)
Lemma Store_backend_error_witness :
  fst (Store (X := Demo.extern) tt Demo.hello 10 []
         (Demo.machine0 (Demo.put_fails Demo.not_found) None))
  = Err Demo.not_found.
Proof.
  set (st := Demo.machine0 (Demo.put_fails Demo.not_found) None).
  destruct (Store_backend_error (X := Demo.extern) tt Demo.hello 10 [] st
              (fst (Store (X := Demo.extern) tt Demo.hello 10 [] st))
              (snd (Store (X := Demo.extern) tt Demo.hello 10 [] st))
              eq_refl) as [Hput _].
  apply (Hput Demo.hello 10%Z). vm_compute. left. reflexivity.
Defined.

(** ** Store and the batch-poster check *)

(** C2: with a batch-poster verifier configured, when the signer cannot be
    recovered, or [IsBatchPoster] returns an error, or it answers false,
    [Store] returns an error and no certificate (the recovery error, the
    verifier's error, or "store request not properly signed"), and the only
    call it made is the [IsBatchPoster] one, if any: no [Put], no [Sync]. *)
Theorem Store_unauthorized {T : ExternTypes} {X : Extern}
    ctx message timeout sig st v :
  bpVerifier (self st) = Some v ->
  (is_Err (DasRecoverSigner message timeout sig) = true \/
   exists a,
     DasRecoverSigner message timeout sig = Ok a /\
     (is_Err (fst (IsBatchPoster v ctx a (world (sys st)))) = true \/
      fst (IsBatchPoster v ctx a (world (sys st))) = Ok false)) ->
  let out := Store ctx message timeout sig st in
  fst out =
    Err (match DasRecoverSigner message timeout sig with
         | Err e => e
         | Ok a =>
             match fst (IsBatchPoster v ctx a (world (sys st))) with
             | Err e => e
             | Ok _ => errors_New "store request not properly signed"
             end
         end) /\
  new_calls (sys st) (sys (snd out)) =
    match DasRecoverSigner message timeout sig with
    | Err _ => []
    | Ok a => [CallIsBatchPoster a (fst (IsBatchPoster v ctx a (world (sys st))))]
    end /\
  forallb (fun c => negb (is_storage_write c))
    (new_calls (sys st) (sys (snd out))) = true.
Proof.
  intros Hv Hfail out.
  destruct out as [r st'] eqn:E. subst out. simpl.
  apply Store_run in E as (ra & st1 & Ea & E).
  apply Store_authorize_run in Ea as (_ & _ & Ea). rewrite Hv in Ea.
  destruct (DasRecoverSigner message timeout sig) as [a|e].
  - destruct Hfail as [Hf|(a' & Ha' & Hf)]; [discriminate Hf|].
    inversion Ha'; subst a'; clear Ha'.
    destruct (IsBatchPoster v ctx a (world (sys st))) as [rb w].
    simpl in Hf |- *. destruct Ea as (_ & Hc & ->).
    destruct rb as [[|]|e]; simpl in Hf;
      [destruct Hf; discriminate|..]; destruct E as [-> ->];
      rewrite (new_calls_app _ _ _ Hc); auto.
  - destruct Ea as [-> ->]. destruct E as [-> ->].
    rewrite new_calls_refl. auto.
Qed.

(** Address 2 is not a registered batch poster. *)
Lemma Store_unauthorized_witness :
  fst (Store (X := Demo.extern) tt Demo.hello 10 ["002"%byte]
         (Demo.machine0 Demo.mem_store (Some tt)))
  = Err (errors_New "store request not properly signed").
Proof.
  refine (proj1 (Store_unauthorized (X := Demo.extern) tt Demo.hello 10
                   ["002"%byte] (Demo.machine0 Demo.mem_store (Some tt)) tt
                   eq_refl _)).
  right. exists 2%Z. split; [reflexivity|]. right. reflexivity.
Defined.

(** ** The certificate *)

(** C3: the certificate of a successful [Store] carries the Keccak-256 hash
    of the message copied into its 32-byte [DataHash] (the hash itself, as
    Keccak-256 returns 32 bytes), the caller's timeout, signers mask 1, and
    the node's keyset hash, which for a node made by
    [NewDASWithSeqInboxCaller] is the hash of its one-member keyset as
    computed there. *)
Theorem Store_certificate_fields {T : ExternTypes} {X : Extern}
    ctx message timeout sig st c :
  fst (Store ctx message timeout sig st) = Ok c ->
  DataHash c = copy_array 32 (Keccak256 message) /\
  List.length (DataHash c) = 32%nat /\
  (List.length (Keccak256 message) = 32%nat ->
   DataHash c = Keccak256 message) /\
  Timeout c = timeout /\
  SignersMask c = 1%Z /\
  KeysetHash c = keysetHash (self st) /\
  (forall ctx0 cfg caller ss s0,
      fst (NewDASWithSeqInboxCaller ctx0 cfg caller ss s0) = Ok (self st) ->
      exists pk h,
        PublicKeyFromPrivateKey (privKey (self st)) = Ok pk /\
        Keyset_Hash {| AssumedHonest := 1; PubKeys := [pk] |} = Ok h /\
        KeysetHash c = copy_array 32 h).
Proof.
  intros E. apply Store_ok in E as (s & _ & ->). simpl.
  split; [reflexivity|]. split; [apply copy_array_length|].
  split; [apply copy_array_exact|].
  repeat split.
  intros ctx0 cfg caller ss s0 Hnew.
  apply NewDASWithSeqInboxCaller_ok in Hnew
    as (pk & h & Hpk & _ & Hh & Hk & _).
  exists pk, h. auto.
Qed.

Lemma Store_certificate_fields_witness :
  exists c,
    fst (Store (X := Demo.extern) tt Demo.hello 10 []
           (Demo.machine0 Demo.mem_store None)) = Ok c /\
    DataHash c = Demo.digest Demo.hello /\
    Timeout c = 10%Z /\ SignersMask c = 1%Z /\
    KeysetHash c = keysetHash (Demo.das0 Demo.mem_store None).
Proof.
  eexists. split; [reflexivity|].
  destruct (Store_certificate_fields (X := Demo.extern) tt Demo.hello 10 []
              (Demo.machine0 Demo.mem_store None) _ eq_refl)
    as (_ & _ & Hd & Ht & Hm & Hk & _).
  split; [apply Hd; reflexivity|]. split; [exact Ht|].
  split; [exact Hm|exact Hk].
Defined.









(** ** Resolving keysets *)

Lemma KeysetFromHash_other {T : ExternTypes} ctx ksHash st :
  ksHash <> keysetHash (self st) ->
  KeysetFromHash ctx ksHash st =
    (match fst (GetByHash_ (storageService (self st)) ctx ksHash
                  (world (sys st))) with
     | Ok contents => Ok contents
     | Err _ => Err ErrDasKeysetNotFound
     end,
     {| self := self st;
        sys := {| world := snd (GetByHash_ (storageService (self st)) ctx
                                  ksHash (world (sys st)));
                  calls := calls (sys st) ++
                           [CallGetByHash ksHash
                              (fst (GetByHash_ (storageService (self st)) ctx
                                      ksHash (world (sys st))))];
                  closers := closers (sys st) |} |}).
Proof.
  intros Hne. apply bytes_Equal_neq in Hne.
  unfold KeysetFromHash, GetByHash. go_unfold. rewrite Hne.
  destruct (GetByHash_ _ ctx ksHash _) as [[b|e] w]; reflexivity.
Qed.

(** C5: asked for its own keyset hash, [KeysetFromHash] returns the node's
    keyset bytes and nil, and leaves everything as it was: no call is made,
    to the storage service or elsewhere, whatever the storage service is.
    On a node made by [NewDASWithSeqInboxCaller] those bytes are the
    serialization of its one-member keyset computed there. *)
Theorem KeysetFromHash_local {T : ExternTypes} {X : Extern} ctx st :
  KeysetFromHash ctx (keysetHash (self st)) st
    = (Ok (keysetBytes (self st)), st) /\
  new_calls (sys st)
    (sys (snd (KeysetFromHash ctx (keysetHash (self st)) st))) = [] /\
  (forall ctx0 cfg caller ss s0,
      fst (NewDASWithSeqInboxCaller ctx0 cfg caller ss s0) = Ok (self st) ->
      exists pk,
        PublicKeyFromPrivateKey (privKey (self st)) = Ok pk /\
        Keyset_Serialize {| AssumedHonest := 1; PubKeys := [pk] |}
          = Ok (keysetBytes (self st))).
Proof.
  assert (E : KeysetFromHash ctx (keysetHash (self st)) st
              = (Ok (keysetBytes (self st)), st)).
  { unfold KeysetFromHash. go_unfold. now rewrite bytes_Equal_refl. }
  rewrite E. simpl. split; [reflexivity|]. split; [apply new_calls_refl|].
  intros ctx0 cfg caller ss s0 Hnew.
  apply NewDASWithSeqInboxCaller_ok in Hnew as (pk & h & Hpk & Hser & _).
  eauto.
Qed.

(** C6: asked for any other hash, [KeysetFromHash] makes exactly one call,
    [GetByHash] on the storage service with that hash; bytes it returns are
    passed on unchanged, and any error it returns is replaced by
    [ErrDasKeysetNotFound]. *)
Theorem KeysetFromHash_remote {T : ExternTypes} ctx ksHash st :
  ksHash <> keysetHash (self st) ->
  let answer :=
    GetByHash_ (storageService (self st)) ctx ksHash (world (sys st)) in
  KeysetFromHash ctx ksHash st =
    (match fst answer with
     | Ok contents => Ok contents
     | Err _ => Err ErrDasKeysetNotFound
     end,
     {| self := self st;
        sys := {| world := snd answer;
                  calls := calls (sys st) ++ [CallGetByHash ksHash (fst answer)];
                  closers := closers (sys st) |} |}).
Proof.
  intros Hne answer. subst answer. now apply KeysetFromHash_other.
Qed.

(** An empty store knows no keyset but the node's own. *)
Lemma KeysetFromHash_remote_witness :
  fst (KeysetFromHash (T := Demo.types) tt Demo.hello
         (Demo.machine0 Demo.mem_store None))
  = Err ErrDasKeysetNotFound.
Proof.
  rewrite (KeysetFromHash_remote (T := Demo.types) tt Demo.hello
             (Demo.machine0 Demo.mem_store None)).
  - reflexivity.
  - apply bytes_Equal_neq. reflexivity.
Defined.

(** C10: [KeysetFromHash] does not check what the storage service hands
    back.  For any hash other than the node's own keyset hash and any bytes
    whose Keccak-256 hash is not that hash, there is a storage service with
    which [KeysetFromHash] of the hash succeeds with those bytes. *)
Theorem KeysetFromHash_unchecked {T : ExternTypes} {X : Extern}
    ctx ksHash contents d s :
  ksHash <> keysetHash d ->
  Keccak256 contents <> ksHash ->
  exists ss,
    fst (KeysetFromHash ctx ksHash
           {| self := with_storageService d ss; sys := s |}) = Ok contents /\
    Keccak256 contents <> ksHash.
Proof.
  intros Hne Hhash. exists (answering_store contents).
  split; [|exact Hhash].
  rewrite KeysetFromHash_other by exact Hne. reflexivity.
Qed.

Lemma KeysetFromHash_unchecked_witness :
  exists ss,
    fst (KeysetFromHash (T := Demo.types) tt (Demo.digest [])
           {| self := with_storageService (Demo.das0 Demo.mem_store None) ss;
              sys := Demo.sys0 |}) = Ok Demo.hello /\
    Demo.digest Demo.hello <> Demo.digest [].
Proof.
  apply (KeysetFromHash_unchecked (X := Demo.extern) tt (Demo.digest [])
           Demo.hello (Demo.das0 Demo.mem_store None) Demo.sys0);
    apply bytes_Equal_neq; reflexivity.
Defined.

(** ** Construction *)

Lemma try_bind_ret {S A : Type} (c : M S (result A)) (s : S) :
  try_bind c (fun a => ret (Ok a)) s = c s.
Proof.
  unfold try_bind, bind, ret. now destruct (c s) as [[a|e] s'].
Qed.

(** C7: the storage service is chosen by the storage-type name alone, out
    of five: "files" the disk store, "db" the local database, "s3" the
    object store, "redis" a cache over an object store, "bigCache" a memory
    cache over a cache over an object store.  A non-empty name that is none
    of the five builds nothing: [NewStorageServiceFromStorageConfig]
    returns the "not recognized" error without calling any constructor, and
    [NewDAS] returns that error without doing anything else. *)
Theorem NewStorageServiceFromStorageConfig_dispatch
    {T : ExternTypes} {X : Extern} ctx config s :
  StorageType config <> "" ->
  NewStorageServiceFromStorageConfig ctx config s =
    match spec_chain_of_name (StorageType config) with
    | Some c => spec_build_chain ctx config c s
    | None => (Err (spec_unrecognized (StorageType config)), s)
    end /\
  (spec_chain_of_name (StorageType config) = None <->
   ~ In (StorageType config) spec_chain_names) /\
  (~ In (StorageType config) spec_chain_names ->
   forall dacfg,
     DASConfig dacfg = config ->
     NewDAS ctx dacfg s = (Err (spec_unrecognized (StorageType config)), s)).
Proof.
  intros Hne. apply String.eqb_neq in Hne.
  assert (Hmain : NewStorageServiceFromStorageConfig ctx config s =
            match spec_chain_of_name (StorageType config) with
            | Some c => spec_build_chain ctx config c s
            | None => (Err (spec_unrecognized (StorageType config)), s)
            end).
  { unfold NewStorageServiceFromStorageConfig, spec_chain_of_name.
    cbv zeta. rewrite Hne. simpl orb.
    unfold spec_build_chain, spec_disk, spec_object_store, spec_cache_over,
      spec_memory_cache_over, spec_local_database.
    destruct (String.eqb (StorageType config) "files"); [reflexivity|].
    cbn [orb].
    destruct (String.eqb (StorageType config) "db"); [reflexivity|].
    destruct (String.eqb (StorageType config) "s3");
      [apply try_bind_ret|].
    destruct (String.eqb (StorageType config) "redis").
    { unfold try_bind, bind.
      destruct (extern _ _ s) as [[a|e] s1]; [|reflexivity].
      apply (try_bind_ret _ s1). }
    destruct (String.eqb (StorageType config) "bigCache"); [|reflexivity].
    unfold try_bind, bind.
    destruct (extern _ _ s) as [[a|e] s1]; [|reflexivity].
    destruct (extern _ _ s1) as [[b|e] s2]; [|reflexivity].
    apply (try_bind_ret _ s2). }
  assert (Hnone : spec_chain_of_name (StorageType config) = None <->
                  ~ In (StorageType config) spec_chain_names).
  { unfold spec_chain_of_name, spec_chain_names. simpl.
    repeat match goal with
           | |- context [String.eqb ?a ?b] =>
               destruct (String.eqb_spec a b) as [->|?]
           end; split; try discriminate; try tauto; intros _; intuition congruence. }
  repeat split; try apply Hnone; auto.
  intros Hnot dacfg <-. unfold NewDAS, try_bind, bind.
  rewrite Hmain. apply Hnone in Hnot. now rewrite Hnot.
Qed.

(** There is no "tape" store. *)
Lemma NewStorageServiceFromStorageConfig_dispatch_witness :
  fst (NewStorageServiceFromStorageConfig (X := Demo.extern) tt
         (Demo.config0 "tape" "" false) Demo.sys0)
  = Err (errors_New "Storage service type not recognized: tape").
Proof.
  rewrite (proj1 (NewStorageServiceFromStorageConfig_dispatch
                    (X := Demo.extern) tt (Demo.config0 "tape" "" false)
                    Demo.sys0 ltac:(discriminate))).
  reflexivity.
Defined.

(** C8: where [NewDASWithSeqInboxCaller] takes the signing key from.  With
    a non-empty inline key, the key is decoded and nothing is read from the
    key directory; a decoding error ends the construction.  With no inline
    key, the key pair is read from the key directory; when that fails
    because the files do not exist and generating keys is allowed, a new
    pair is generated and stored there; when they do not exist and
    generating is not allowed, or the read fails otherwise, the
    construction ends with an error.  Whenever a node is returned, its
    private key is the one so obtained. *)
Theorem NewDASWithSeqInboxCaller_key {T : ExternTypes} {X : Extern}
    ctx config caller ss s :
  let out := NewDASWithSeqInboxCaller ctx config caller ss s in
  let dir := KeyDir config in
  let build := NewDAS_build config caller ss in
  let read := ReadKeysFromFile dir (world s) in
  let s1 := {| world := snd read;
               calls := calls s ++ [CallReadKeysFromFile dir (fst read)];
               closers := closers s |} in
  let gen := GenerateAndStoreKeys dir (world s1) in
  let s2 := {| world := snd gen;
               calls := calls s1 ++ [CallGenerateAndStoreKeys dir (fst gen)];
               closers := closers s |} in
  (* inline key *)
  (PrivKey config <> "" ->
   forall k,
     DecodeBase64BLSPrivateKey (list_byte_of_string (PrivKey config)) = Ok k ->
     out = (build k, s)) /\
  (PrivKey config <> "" ->
   forall e,
     DecodeBase64BLSPrivateKey (list_byte_of_string (PrivKey config)) = Err e ->
     out = (Err (fmt_Errorf_w "'priv-key' was invalid: " e), s)) /\
  (* key directory *)
  (PrivKey config = "" ->
   forall pk k, fst read = Ok (pk, k) -> out = (build k, s1)) /\
  (PrivKey config = "" ->
   forall e,
     fst read = Err e -> os_IsNotExist e = true ->
     AllowGenerateKeys config = true ->
     forall pk k, fst gen = Ok (pk, k) -> out = (build k, s2)) /\
  (PrivKey config = "" ->
   forall e,
     fst read = Err e -> os_IsNotExist e = true ->
     AllowGenerateKeys config = true ->
     forall e', fst gen = Err e' -> out = (Err e', s2)) /\
  (PrivKey config = "" ->
   forall e,
     fst read = Err e -> os_IsNotExist e = true ->
     AllowGenerateKeys config = false ->
     out = (Err (errors_New
                   (String.append "Required BLS keypair did not exist at " dir)),
            s1)) /\
  (PrivKey config = "" ->
   forall e,
     fst read = Err e -> os_IsNotExist e = false -> out = (Err e, s1)) /\
  (* the key that is kept *)
  (forall k d, build k = Ok d -> privKey d = k).
Proof.
  intros out dir build read s1 gen s2.
  assert (Hlen : PrivKey config <> "" ->
                 Nat.eqb (String.length (PrivKey config)) 0 = false)
    by (destruct (PrivKey config); [congruence|reflexivity]).
  subst out. unfold NewDASWithSeqInboxCaller, NewDAS_privKey.
  repeat split.
  - intros Hk k Hd. go_unfold. now rewrite (Hlen Hk), Hd.
  - intros Hk e Hd. go_unfold. now rewrite (Hlen Hk), Hd.
  - intros Hk pk k Hr. rewrite Hk. go_unfold. simpl.
    subst s1 read dir. destruct (ReadKeysFromFile _ _) as [r w].
    simpl in Hr |- *. now subst r.
  - intros Hk e Hr Hn Ha pk k Hg. rewrite Hk. go_unfold. simpl.
    subst s2 gen s1 read dir. destruct (ReadKeysFromFile _ _) as [r w].
    simpl in Hr, Hg |- *. subst r. rewrite Hn, Ha.
    destruct (GenerateAndStoreKeys _ _) as [g w']. simpl in Hg |- *.
    now subst g.
  - intros Hk e Hr Hn Ha e' Hg. rewrite Hk. go_unfold. simpl.
    subst s2 gen s1 read dir. destruct (ReadKeysFromFile _ _) as [r w].
    simpl in Hr, Hg |- *. subst r. rewrite Hn, Ha.
    destruct (GenerateAndStoreKeys _ _) as [g w']. simpl in Hg |- *.
    now subst g.
  - intros Hk e Hr Hn Ha. rewrite Hk. go_unfold. simpl.
    subst s1 read dir. destruct (ReadKeysFromFile _ _) as [r w].
    simpl in Hr |- *. subst r. now rewrite Hn, Ha.
  - intros Hk e Hr Hn. rewrite Hk. go_unfold. simpl.
    subst s1 read dir. destruct (ReadKeysFromFile _ _) as [r w].
    simpl in Hr |- *. subst r. now rewrite Hn.
  - intros k d. subst build. unfold NewDAS_build.
    destruct (PublicKeyFromPrivateKey k); [|discriminate].
    destruct (Keyset_Serialize _); [|discriminate].
    destruct (Keyset_Hash _); [|discriminate].
    now intros [= <-].
Qed.

(** ** The node's struct never changes *)

Lemma lift_self {T : ExternTypes} {A : Type} (c : M Sys A) (m : Machine) :
  self (snd (lift c m)) = self m.
Proof. unfold lift. now destruct (c (sys m)). Qed.

Lemma Store_self {T : ExternTypes} {X : Extern} ctx message timeout sig st :
  self (snd (Store ctx message timeout sig st)) = self st.
Proof.
  destruct (Store ctx message timeout sig st) as [r st'] eqn:E. simpl.
  apply Store_run in E as (ra & st1 & Ea & E).
  apply Store_authorize_run in Ea as (Hself & _ & _).
  destruct ra as [[]|e]; [|destruct E as [_ ->]; exact Hself].
  destruct (SignMessage _ _) as [s|e]; [|destruct E as [_ ->]; exact Hself].
  cbv zeta in E. destruct (Put_ _ ctx message timeout _) as [rp w2].
  destruct E as (-> & _). exact Hself.
Qed.

Lemma GetByHash_self {T : ExternTypes} ctx hash st :
  self (snd (GetByHash ctx hash st)) = self st.
Proof. unfold GetByHash. go_unfold. now destruct (GetByHash_ _ ctx hash _). Qed.

Lemma KeysetFromHash_self {T : ExternTypes} ctx ksHash st :
  self (snd (KeysetFromHash ctx ksHash st)) = self st.
Proof.
  unfold KeysetFromHash, GetByHash. go_unfold.
  destruct (bytes_Equal ksHash (keysetHash (self st))); [reflexivity|].
  now destruct (GetByHash_ _ ctx ksHash _) as [[b|e] w].
Qed.

Lemma HealthCheck_self {T : ExternTypes} ctx st :
  self (snd (HealthCheck ctx st)) = self st.
Proof. unfold HealthCheck. go_unfold. now destruct (HealthCheck_ _ ctx _). Qed.

Lemma serve_self {T : ExternTypes} {X : Extern} q st :
  self (snd (serve q st)) = self st.
Proof.
  destruct q; unfold serve, bind, ret.
  - pose proof (Store_self ctx message timeout sig st) as E.
    now destruct (Store ctx message timeout sig st).
  - pose proof (GetByHash_self ctx hash st) as E.
    now destruct (GetByHash ctx hash st).
  - pose proof (KeysetFromHash_self ctx ksHash st) as E.
    now destruct (KeysetFromHash ctx ksHash st).
  - reflexivity.
  - pose proof (HealthCheck_self ctx st) as E.
    now destruct (HealthCheck ctx st).
Qed.

Lemma serve_certificate {T : ExternTypes} {X : Extern} q st c :
  fst (serve q st) = RepCertificate (Ok c) ->
  KeysetHash c = keysetHash (self st).
Proof.
  destruct q; unfold serve, bind, ret; intros E.
  - destruct (Store ctx message timeout sig st) as [r st'] eqn:Es.
    simpl in E. injection E as ->.
    assert (Ec : fst (Store ctx message timeout sig st) = Ok c)
      by now rewrite Es.
    apply Store_ok in Ec as (s & _ & ->). reflexivity.
  - destruct (GetByHash ctx hash st); discriminate E.
  - destruct (KeysetFromHash ctx ksHash st); discriminate E.
  - discriminate E.
  - destruct (HealthCheck ctx st); discriminate E.
Qed.

(** C9: no operation of the node assigns to its struct.  After [Store],
    [GetByHash], [KeysetFromHash], [CurrentKeysetBytes] or [HealthCheck],
    whether it succeeded or failed, the struct (private key, keyset hash,
    keyset bytes, configuration, verifier, storage service) is what it was;
    so it is after any sequence of requests interleaved with anything that
    happens in the world outside, and every certificate issued along such a
    sequence carries the keyset hash the node started with. *)
Theorem DAS_never_changes {T : ExternTypes} {X : Extern} :
  (forall ctx message timeout sig st,
      self (snd (Store ctx message timeout sig st)) = self st) /\
  (forall ctx hash st, self (snd (GetByHash ctx hash st)) = self st) /\
  (forall ctx ksHash st, self (snd (KeysetFromHash ctx ksHash st)) = self st) /\
  (forall ctx st, self (snd (CurrentKeysetBytes ctx st)) = self st) /\
  (forall ctx st, self (snd (HealthCheck ctx st)) = self st) /\
  (forall evs st,
      self (snd (run evs st)) = self st /\
      forall c,
        In (RepCertificate (Ok c)) (fst (run evs st)) ->
        KeysetHash c = keysetHash (self st)).
Proof.
  split; [exact Store_self|].
  split; [exact GetByHash_self|].
  split; [exact KeysetFromHash_self|].
  split; [reflexivity|].
  split; [exact HealthCheck_self|].
  induction evs as [|[q|f] evs IH]; intros st; simpl.
  - split; [reflexivity|]. intros c [].
  - pose proof (serve_self q st) as Hq.
    pose proof (serve_certificate q st) as Hc.
    destruct (serve q st) as [rep m1]. simpl in Hq, Hc.
    specialize (IH m1) as [IHs IHc].
    destruct (run evs m1) as [reps m2]. simpl in *.
    split; [congruence|].
    intros c [Hin|Hin]; [now apply Hc|].
    rewrite <- Hq. now apply IHc.
  - specialize (IH (outside f st)) as [IHs IHc]. split; assumption.
Qed.

(** ** Runs on the small instance *)

Module DemoRuns.
Import Demo.

(** Store, then fetch by the certificate's hash. *)
Example store_then_get :
  let (r, m) := Store tt hello 10 [] (machine0 mem_store None) in
  match r with
  | Ok c => fst (GetByHash tt (DataHash c) m) = Ok hello
  | Err _ => False
  end.
Proof. vm_compute. reflexivity. Qed.

Example store_sync_fails :
  let (r, m) := Store tt hello 10 [] (machine0 (sync_fails not_found) None) in
  r = Err not_found /\
  calls (sys m) = [CallPut hello 10 None; CallSync (Some not_found)].
Proof. vm_compute. split; reflexivity. Qed.

(** Address 1 is a batch poster, and no verifier lets anyone in. *)
Example store_authorized :
  is_Err (fst (Store tt hello 10 ["001"%byte] (machine0 mem_store (Some tt))))
    = false /\
  is_Err (fst (Store tt hello 10 [] (machine0 mem_store (Some tt)))) = true /\
  is_Err (fst (Store tt hello 10 ["002"%byte] (machine0 mem_store None)))
    = false.
Proof. vm_compute. repeat split. Qed.

Example own_keyset :
  fst (KeysetFromHash tt (keysetHash (das0 mem_store None))
         (machine0 mem_store None))
  = Ok (keysetBytes (das0 mem_store None)).
Proof. vm_compute. reflexivity. Qed.

Example chain_bigCache :
  map (fun c => match c with
                | CallNewS3StorageService _ => 1
                | CallNewRedisStorageService _ => 2
                | CallNewBigCacheStorageService _ => 3
                | _ => 0
                end%nat)
    (calls (snd (NewStorageServiceFromStorageConfig tt
                   (config0 "bigCache" "" false) sys0)))
  = [1; 2; 3]%nat.
Proof. vm_compute. reflexivity. Qed.

Example chain_db_registers_close :
  List.length (closers (snd (NewStorageServiceFromStorageConfig tt
                               (config0 "db" "" false) sys0))) = 1%nat.
Proof. vm_compute. reflexivity. Qed.

Example key_inline :
  option_map privKey
    (match fst (NewDASWithSeqInboxCaller tt (config0 "files" "A" false)
                  None mem_store sys0) with
     | Ok d => Some d
     | Err _ => None
     end) = Some 65%Z.
Proof. vm_compute. reflexivity. Qed.

Example key_inline_invalid :
  fst (NewDASWithSeqInboxCaller tt (config0 "files" "!" false)
         None mem_store sys0)
  = Err (fmt_Errorf_w "'priv-key' was invalid: "
           (errors_New "illegal base64 data")).
Proof. vm_compute. reflexivity. Qed.

Example key_from_directory :
  NewDASWithSeqInboxCaller tt (config0 "files" "" false) None mem_store sys0
  = (Ok (das0 mem_store None),
     {| world := disk0;
        calls := [CallReadKeysFromFile "keys" (Ok (5, 5)%Z)];
        closers := [] |}).
Proof. vm_compute. reflexivity. Qed.

Example key_generated :
  let (r, s) := NewDASWithSeqInboxCaller tt (config0 "files" "" true)
                  None mem_store sys_nokeys in
  is_Err r = false /\ keyfile (world s) = Some 7%Z.
Proof. vm_compute. split; reflexivity. Qed.

Example key_missing :
  fst (NewDASWithSeqInboxCaller tt (config0 "files" "" false)
         None mem_store sys_nokeys)
  = Err (errors_New "Required BLS keypair did not exist at keys").
Proof. vm_compute. reflexivity. Qed.

Example unknown_storage_type :
  NewDAS tt {| DASConfig := config0 "tape" "" true;
               L1NodeURL := "none";
               SequencerInboxAddress := "" |} sys_nokeys
  = (Err (errors_New "Storage service type not recognized: tape"), sys_nokeys).
Proof. vm_compute. reflexivity. Qed.

End DemoRuns.

(** * More on the same code *)

(** ** lines 28-47: ExpirationPolicy *)

(** X1: [String] names exactly the three declared policies, 0, 1 and 2, and
    gives each a name of its own; every other value gets the "unknown
    Expiration Policy" error. *)
Theorem ExpirationPolicy_String_names (a b : ExpirationPolicy) :
  (is_Err (ExpirationPolicy_String a) = false <-> (0 <= a <= 2)%Z) /\
  (is_Err (ExpirationPolicy_String a) = true ->
   ExpirationPolicy_String a = Err (errors_New "unknown Expiration Policy")) /\
  (forall s,
      ExpirationPolicy_String a = Ok s -> ExpirationPolicy_String b = Ok s ->
      a = b).
Proof.
  unfold ExpirationPolicy_String, KeepForever, DiscardAfterArchiveTimeout,
    DiscardAfterDataTimeout.
  destruct (Z.eqb_spec a 0), (Z.eqb_spec a 1), (Z.eqb_spec a 2);
    destruct (Z.eqb_spec b 0), (Z.eqb_spec b 1), (Z.eqb_spec b 2);
    simpl; repeat split; intros; try discriminate; try lia; try congruence.
Qed.

(** ** lines 243-282: the calls [Store] makes *)

Lemma filter_no_storage_call {T : ExternTypes} (l : list Call) :
  forallb (fun c => negb (is_storage_call c)) l = true ->
  filter is_storage_call l = [].
Proof.
  induction l as [|c l IH]; simpl; [reflexivity|].
  intros [Hc Hl]%andb_prop. destruct (is_storage_call c); [discriminate|].
  now apply IH.
Qed.

(** The log of one run: the batch-poster check, if any, then the storage
    calls. *)
Lemma Store_calls {T : ExternTypes} {X : Extern}
    ctx message timeout sig st r st' :
  Store ctx message timeout sig st = (r, st') ->
  exists la ls,
    new_calls (sys st) (sys st') = la ++ ls /\
    forallb (fun c => negb (is_storage_call c)) la = true /\
    (bpVerifier (self st) = None -> la = []) /\
    ((ls = [] /\ is_Err r = true) \/
     (exists e, ls = [CallPut message timeout (Some e)] /\ r = Err e) \/
     (exists e,
         ls = [CallPut message timeout None; CallSync (Some e)] /\ r = Err e) \/
     (ls = [CallPut message timeout None; CallSync None] /\ is_Err r = false)).
Proof.
  intros E. apply Store_run in E as (ra & st1 & Ea & E).
  apply Store_authorize_run in Ea as (_ & _ & Ea).
  assert (Hla : exists la,
             calls (sys st1) = calls (sys st) ++ la /\
             forallb (fun c => negb (is_storage_call c)) la = true /\
             (bpVerifier (self st) = None -> la = [])).
  { destruct (bpVerifier (self st)) as [v|].
    - destruct (DasRecoverSigner message timeout sig) as [a|e0].
      + destruct (IsBatchPoster v ctx a (world (sys st))) as [rb w].
        destruct Ea as (_ & Hc & _).
        exists [CallIsBatchPoster a rb]. repeat split; auto. discriminate.
      + destruct Ea as [_ ->]. exists []. now rewrite app_nil_r.
    - destruct Ea as [_ ->]. exists []. now rewrite app_nil_r. }
  destruct Hla as (la & Hla & Hno & Hnone). clear Ea.
  exists la.
  destruct ra as [[]|e0].
  2:{ destruct E as [-> ->]. exists []. rewrite app_nil_r.
      rewrite (new_calls_app _ _ _ Hla). repeat split; auto. }
  destruct (SignMessage _ _) as [s|e0].
  2:{ destruct E as [-> ->]. exists []. rewrite app_nil_r.
      rewrite (new_calls_app _ _ _ Hla). repeat split; auto. }
  cbv zeta in E.
  destruct (Put_ _ ctx message timeout _) as [[e1|] w2].
  - destruct E as (_ & _ & -> & _ & Hc).
    rewrite Hla, <- app_assoc in Hc. rewrite (new_calls_app _ _ _ Hc).
    exists [CallPut message timeout (Some e1)]. repeat split; eauto.
  - destruct (Sync_ _ ctx w2) as [rs w3].
    destruct E as (_ & _ & _ & Hc & ->).
    rewrite Hla, <- app_assoc in Hc. rewrite (new_calls_app _ _ _ Hc).
    exists [CallPut message timeout None; CallSync rs].
    repeat split; auto. destruct rs as [e2|]; eauto 6.
Qed.

(** X4: in one run, [Store] calls the storage service in a fixed order and
    never twice: nothing at all (when it fails before), or one [Put] of the
    request's message and timeout that fails, or that [Put] followed by one
    [Sync].  [Sync] is never called after a failed [Put], and [GetByHash] and
    [HealthCheck] are never called. *)
Theorem Store_storage_calls {T : ExternTypes} {X : Extern}
    ctx message timeout sig st :
  let out := Store ctx message timeout sig st in
  let seen := filter is_storage_call (new_calls (sys st) (sys (snd out))) in
  (seen = [] /\ is_Err (fst out) = true) \/
  (exists e, seen = [CallPut message timeout (Some e)] /\ fst out = Err e) \/
  (exists e,
      seen = [CallPut message timeout None; CallSync (Some e)] /\
      fst out = Err e) \/
  (seen = [CallPut message timeout None; CallSync None] /\
   is_Err (fst out) = false).
Proof.
  intros out seen. subst seen out.
  destruct (Store ctx message timeout sig st) as [r st'] eqn:E. simpl.
  apply Store_calls in E as (la & ls & -> & Hno & _ & Hls).
  rewrite filter_app, (filter_no_storage_call _ Hno). simpl.
  destruct Hls as [[-> Hr]|[(e & -> & Hr)|[(e & -> & Hr)|[-> Hr]]]];
    simpl; eauto 6.
Qed.

(** X2: a node with no batch-poster verifier does not look at the
    signature: [Store] returns the same result and leaves the same state
    whatever the signature bytes are, and never calls [IsBatchPoster]. *)
Theorem Store_without_verifier {T : ExternTypes} {X : Extern}
    ctx message timeout sig sig' st :
  bpVerifier (self st) = None ->
  Store ctx message timeout sig st = Store ctx message timeout sig' st /\
  forall a r,
    ~ In (CallIsBatchPoster a r)
        (new_calls (sys st) (sys (snd (Store ctx message timeout sig st)))).
Proof.
  intros Hv. split.
  - unfold Store, Store_authorize, try_bind, bind, rd. simpl.
    now rewrite Hv.
  - intros a r Hin.
    destruct (Store ctx message timeout sig st) as [res st'] eqn:E.
    simpl in Hin.
    apply Store_calls in E as (la & ls & Hc & _ & Hnone & Hls).
    rewrite Hc, (Hnone Hv) in Hin. simpl in Hin.
    destruct Hls as [[-> _]|[(e & -> & _)|[(e & -> & _)|[-> _]]]];
      simpl in Hin; intuition discriminate.
Qed.

Lemma Store_without_verifier_witness :
  Store (X := Demo.extern) tt Demo.hello 10 []
    (Demo.machine0 Demo.mem_store None)
  = Store (X := Demo.extern) tt Demo.hello 10 ["002"%byte]
      (Demo.machine0 Demo.mem_store None).
Proof.
  exact (proj1 (Store_without_verifier (X := Demo.extern) tt Demo.hello 10
                  [] ["002"%byte] (Demo.machine0 Demo.mem_store None)
                  eq_refl)).
Defined.

(** X3: when signing fails, [Store] returns an error and the storage
    service is not called at all; if the request got past the batch-poster
    check, the error returned is the one [SignMessage] gave. *)
Theorem Store_signing_error {T : ExternTypes} {X : Extern}
    ctx message timeout sig st e :
  SignMessage (privKey (self st))
    (SerializeSignableFields (Store_unsigned message timeout)) = Err e ->
  let out := Store ctx message timeout sig st in
  is_Err (fst out) = true /\
  filter is_storage_call (new_calls (sys st) (sys (snd out))) = [] /\
  (fst (Store_authorize ctx message timeout sig st) = Ok tt ->
   fst out = Err e).
Proof.
  intros Hs out. subst out.
  destruct (Store ctx message timeout sig st) as [r st'] eqn:E. simpl.
  apply Store_run in E as (ra & st1 & Ea & E).
  pose proof Ea as Ea'.
  apply Store_authorize_calls in Ea' as (Hself & la & Hla & Hno).
  rewrite Hself, Hs in E. rewrite Ea. simpl.
  destruct ra as [[]|e0]; destruct E as [-> ->];
    rewrite (new_calls_app _ _ _ Hla), (filter_no_storage_call _ Hno);
    repeat split; intros; congruence.
Qed.

Lemma Store_signing_error_witness :
  let X := Faulty.extern
             {| Faulty.sign_fails := true; Faulty.pubkey_fails := false;
                Faulty.db_fails := false; Faulty.s3_fails := false;
                Faulty.redis_fails := false; Faulty.dial_fails := false;
                Faulty.caller_fails := false |} in
  fst (Store (X := X) tt Demo.hello 10 [] (Demo.machine0 Demo.mem_store None))
  = Err Faulty.broken.
Proof.
  intros X.
  refine (proj2 (proj2 (Store_signing_error (X := X) tt Demo.hello 10 []
                          (Demo.machine0 Demo.mem_store None) Faulty.broken
                          eq_refl)) eq_refl).
Defined.

(** ** lines 243-297: [Store] with the lookups *)

Lemma KeysetFromHash_own {T : ExternTypes} ctx st :
  KeysetFromHash ctx (keysetHash (self st)) st
  = (Ok (keysetBytes (self st)), st).
Proof.
  unfold KeysetFromHash. go_unfold. now rewrite bytes_Equal_refl.
Qed.

(** X5: what [Store] stored can be fetched with the certificate.  If the
    storage service is such that a message that was put and synced is
    returned by [GetByHash] of its Keccak-256 hash, then after a successful
    [Store] of a message, [GetByHash] of the certificate's [DataHash]
    returns the message. *)
Theorem Store_then_GetByHash {T : ExternTypes} {X : Extern}
    ctx ctx' message timeout sig st c :
  List.length (Keccak256 message) = 32%nat ->
  (forall w0 w1 w2,
      Put_ (storageService (self st)) ctx message timeout w0 = (None, w1) ->
      Sync_ (storageService (self st)) ctx w1 = (None, w2) ->
      fst (GetByHash_ (storageService (self st)) ctx' (Keccak256 message) w2)
        = Ok message) ->
  fst (Store ctx message timeout sig st) = Ok c ->
  fst (GetByHash ctx' (DataHash c) (snd (Store ctx message timeout sig st)))
    = Ok message.
Proof.
  intros Hlen Hss E.
  pose proof (Store_ok _ _ _ _ _ _ E) as (s & _ & Hc).
  assert (Hd : DataHash c = Keccak256 message).
  { subst c. simpl. now apply copy_array_exact. }
  rewrite Hd. clear Hc Hd.
  destruct (Store ctx message timeout sig st) as [r st'] eqn:Es.
  simpl in E |- *. subst r.
  apply Store_run in Es as (ra & st1 & Ea & Es).
  apply Store_authorize_run in Ea as (Hself & _ & _). rewrite Hself in Es.
  destruct ra as [[]|e]; [|destruct Es; discriminate].
  destruct (SignMessage _ _) as [s'|e]; [|destruct Es; discriminate].
  cbv zeta in Es.
  destruct (Put_ _ ctx message timeout _) as [[e|] w2] eqn:Ep;
    [destruct Es as (_ & _ & Hr & _); discriminate|].
  destruct (Sync_ _ ctx w2) as [[e|] w3] eqn:Ey;
    destruct Es as (Hs' & _ & Hw & _ & Hr); [discriminate|].
  unfold GetByHash. go_unfold. simpl. rewrite Hs', Hw.
  specialize (Hss _ _ _ Ep Ey).
  now destruct (GetByHash_ _ ctx' (Keccak256 message) w3).
Qed.

Lemma Store_then_GetByHash_witness :
  exists c,
    fst (Store (X := Demo.extern) tt Demo.hello 10 []
           (Demo.machine0 Demo.mem_store None)) = Ok c /\
    fst (GetByHash (T := Demo.types) tt (DataHash c)
           (snd (Store (X := Demo.extern) tt Demo.hello 10 []
                   (Demo.machine0 Demo.mem_store None)))) = Ok Demo.hello.
Proof.
  eexists. split; [reflexivity|].
  apply (Store_then_GetByHash (X := Demo.extern) tt tt Demo.hello 10 []
           (Demo.machine0 Demo.mem_store None)).
  - reflexivity.
  - intros w0 w1 w2 Hp Hs. simpl in Hp, Hs.
    injection Hp as <-. injection Hs as <-. reflexivity.
  - reflexivity.
Defined.

(** X6: the keyset named by a certificate can be asked of the node that
    issued it: after a successful [Store], [KeysetFromHash] of the
    certificate's [KeysetHash] returns the node's keyset bytes without any
    call and without changing anything. *)
Theorem Store_then_KeysetFromHash {T : ExternTypes} {X : Extern}
    ctx ctx' message timeout sig st c :
  fst (Store ctx message timeout sig st) = Ok c ->
  KeysetFromHash ctx' (KeysetHash c) (snd (Store ctx message timeout sig st))
  = (Ok (keysetBytes (self st)), snd (Store ctx message timeout sig st)).
Proof.
  intros E. apply Store_ok in E as (s & _ & ->). simpl.
  rewrite <- (Store_self ctx message timeout sig st).
  apply KeysetFromHash_own.
Qed.

Lemma Store_then_KeysetFromHash_witness :
  exists c,
    fst (Store (X := Demo.extern) tt Demo.hello 10 []
           (Demo.machine0 Demo.mem_store None)) = Ok c /\
    fst (KeysetFromHash (T := Demo.types) tt (KeysetHash c)
           (snd (Store (X := Demo.extern) tt Demo.hello 10 []
                   (Demo.machine0 Demo.mem_store None))))
    = Ok (keysetBytes (Demo.das0 Demo.mem_store None)).
Proof.
  eexists. split; [reflexivity|].
  now rewrite (Store_then_KeysetFromHash (X := Demo.extern) tt tt Demo.hello
                 10 [] (Demo.machine0 Demo.mem_store None) _ eq_refl).
Defined.

(** X7: [KeysetFromHash] has one error only.  Whenever it fails, the error
    is [ErrDasKeysetNotFound], the hash asked for is not the node's own
    keyset hash, and the storage service's [GetByHash] failed. *)
Theorem KeysetFromHash_only_error {T : ExternTypes} ctx ksHash st e :
  fst (KeysetFromHash ctx ksHash st) = Err e ->
  e = ErrDasKeysetNotFound /\
  ksHash <> keysetHash (self st) /\
  is_Err (fst (GetByHash_ (storageService (self st)) ctx ksHash
                 (world (sys st)))) = true.
Proof.
  unfold KeysetFromHash, GetByHash. go_unfold.
  destruct (bytes_Equal ksHash (keysetHash (self st))) eqn:Eh;
    [discriminate|].
  apply bytes_Equal_neq in Eh.
  destruct (GetByHash_ _ ctx ksHash _) as [[b|e'] w]; simpl;
    [discriminate|].
  intros [= <-]. auto.
Qed.

Lemma KeysetFromHash_only_error_witness :
  Demo.hello <> keysetHash (Demo.das0 Demo.mem_store None) /\
  is_Err (fst (GetByHash_ Demo.mem_store tt Demo.hello Demo.disk0)) = true.
Proof.
  exact (proj2 (KeysetFromHash_only_error (T := Demo.types) tt Demo.hello
                  (Demo.machine0 Demo.mem_store None) ErrDasKeysetNotFound
                  eq_refl)).
Defined.

(** ** lines 243-309: who writes to the storage service *)

Lemma Store_log {T : ExternTypes} {X : Extern} ctx message timeout sig st :
  exists l,
    calls (sys (snd (Store ctx message timeout sig st)))
      = calls (sys st) ++ l /\
    forall c,
      In c l -> is_storage_write c = true ->
      c = CallSync None \/ (exists e, c = CallSync (Some e)) \/
      exists r, c = CallPut message timeout r.
Proof.
  destruct (Store ctx message timeout sig st) as [r st'] eqn:E. simpl.
  apply Store_run in E as (ra & st1 & Ea & E).
  apply Store_authorize_calls in Ea as (_ & la & Hla & Hno).
  assert (Hin : forall c, In c la -> is_storage_write c = true -> False).
  { intros c Hc Hw. rewrite forallb_forall in Hno.
    specialize (Hno c Hc). destruct c; discriminate. }
  assert (Hex : forall c, In c la -> is_storage_write c = true ->
            c = CallSync None \/ (exists e, c = CallSync (Some e)) \/
            exists r, c = CallPut message timeout r)
    by (intros c Hc Hw; destruct (Hin c Hc Hw)).
  destruct ra as [[]|e0]; [|destruct E as [_ ->]; eauto].
  destruct (SignMessage _ _) as [s|e0]; [|destruct E as [_ ->]; eauto].
  cbv zeta in E.
  destruct (Put_ _ ctx message timeout _) as [[e1|] w2].
  - destruct E as (_ & _ & _ & _ & Hc). rewrite Hla, <- app_assoc in Hc.
    eexists. split; [exact Hc|].
    intros c [Hi|[<-|[]]]%in_app_or Hw; eauto.
  - destruct (Sync_ _ ctx w2) as [rs w3].
    destruct E as (_ & _ & _ & Hc & _). rewrite Hla, <- app_assoc in Hc.
    eexists. split; [exact Hc|].
    intros c [Hi|[<-|[<-|[]]]]%in_app_or Hw; eauto.
    destruct rs; eauto.
Qed.

Lemma serve_log {T : ExternTypes} {X : Extern} q st :
  exists l,
    calls (sys (snd (serve q st))) = calls (sys st) ++ l /\
    forall c,
      In c l -> is_storage_write c = true ->
      exists ctx message timeout sig,
        q = ReqStore ctx message timeout sig /\
        forall m t r, c = CallPut m t r -> m = message /\ t = timeout.
Proof.
  destruct q; unfold serve, bind, ret.
  - destruct (Store_log ctx message timeout sig st) as (l & Hl & Hw).
    destruct (Store ctx message timeout sig st) as [r st']. simpl in *.
    exists l. split; [exact Hl|].
    intros c Hc Hs. exists ctx, message, timeout, sig. split; [reflexivity|].
    intros m t r0 ->.
    destruct (Hw _ Hc Hs) as [H0|[[e H0]|[r' H0]]];
      try discriminate H0. now injection H0 as -> -> _.
  - unfold GetByHash. go_unfold. simpl.
    destruct (GetByHash_ _ ctx hash _) as [r w]. simpl.
    eexists. split; [reflexivity|].
    intros c [<-|[]] Hs. discriminate Hs.
  - unfold KeysetFromHash, GetByHash. go_unfold. simpl.
    destruct (bytes_Equal ksHash (keysetHash (self st))); simpl.
    + exists []. split; [now rewrite app_nil_r|]. intros c [].
    + destruct (GetByHash_ _ ctx ksHash _) as [[b|e] w]; simpl;
        (eexists; split; [reflexivity|]); intros c [<-|[]] Hs;
        discriminate Hs.
  - simpl. exists []. split; [now rewrite app_nil_r|]. intros c [].
  - unfold HealthCheck. go_unfold. simpl.
    destruct (HealthCheck_ _ ctx _) as [r w]. simpl.
    eexists. split; [reflexivity|].
    intros c [<-|[]] Hs. discriminate Hs.
Qed.

Lemma run_log {T : ExternTypes} {X : Extern} evs :
  forall st,
  exists l,
    calls (sys (snd (run evs st))) = calls (sys st) ++ l /\
    forall c,
      In c l -> is_storage_write c = true ->
      exists ctx message timeout sig,
        In (Serve (ReqStore ctx message timeout sig)) evs /\
        forall m t r, c = CallPut m t r -> m = message /\ t = timeout.
Proof.
  induction evs as [|[q|f] evs IH]; intros st; simpl.
  - exists []. split; [now rewrite app_nil_r|]. intros c [].
  - destruct (serve_log q st) as (l1 & Hl1 & Hw1).
    destruct (serve q st) as [rep m1]. simpl in Hl1.
    destruct (IH m1) as (l2 & Hl2 & Hw2).
    destruct (run evs m1) as [reps m2]. simpl in *.
    exists (l1 ++ l2). split; [now rewrite Hl2, Hl1, app_assoc|].
    intros c [Hc|Hc]%in_app_or Hs.
    + destruct (Hw1 c Hc Hs) as (ctx & m & t & sig & -> & Hput).
      exists ctx, m, t, sig. auto.
    + destruct (Hw2 c Hc Hs) as (ctx & m & t & sig & Hin & Hput).
      exists ctx, m, t, sig. auto.
  - destruct (IH (outside f st)) as (l & Hl & Hw). simpl in Hl.
    exists l. split; [exact Hl|].
    intros c Hc Hs.
    destruct (Hw c Hc Hs) as (ctx & m & t & sig & Hin & Hput).
    exists ctx, m, t, sig. auto.
Qed.

(** X8: only [Store] writes.  Along any sequence of requests, interleaved
    with anything happening outside, every [Put] the node made carries the
    message and timeout of a [Store] request of the sequence, and every
    [Sync] belongs to one; [GetByHash], [KeysetFromHash],
    [CurrentKeysetBytes] and [HealthCheck] never put or sync. *)
Theorem run_writes_come_from_Store {T : ExternTypes} {X : Extern} evs st c :
  In c (new_calls (sys st) (sys (snd (run evs st)))) ->
  is_storage_write c = true ->
  exists ctx message timeout sig,
    In (Serve (ReqStore ctx message timeout sig)) evs /\
    forall m t r, c = CallPut m t r -> m = message /\ t = timeout.
Proof.
  destruct (run_log evs st) as (l & Hl & Hw).
  rewrite (new_calls_app _ _ _ Hl). apply Hw.
Qed.

Lemma run_writes_come_from_Store_witness :
  exists ctx sig,
    In (Serve (T := Demo.types) (ReqStore ctx Demo.hello 10 sig))
      [Serve (ReqGetByHash (T := Demo.types) tt Demo.hello);
       Serve (ReqStore (T := Demo.types) tt Demo.hello 10 []);
       Serve (ReqHealthCheck (T := Demo.types) tt)].
Proof.
  destruct (run_writes_come_from_Store (X := Demo.extern)
              [Serve (ReqGetByHash (T := Demo.types) tt Demo.hello);
               Serve (ReqStore (T := Demo.types) tt Demo.hello 10 []);
               Serve (ReqHealthCheck (T := Demo.types) tt)]
              (Demo.machine0 Demo.mem_store None)
              (CallPut (T := Demo.types) Demo.hello 10 None))
    as (ctx & m & t & sig & Hin & Hput).
  - vm_compute. right. left. reflexivity.
  - reflexivity.
  - destruct (Hput _ _ _ eq_refl) as [<- <-]. exists ctx, sig. exact Hin.
Defined.

(** ** lines 195-241: building the storage service *)

(** X9: an empty storage type means "files": for either name the disk
    store on [LocalConfig.DataDir] is returned, no constructor that can
    fail is called, and nothing else of the configuration is looked at. *)
Theorem NewStorageService_default {T : ExternTypes} {X : Extern}
    ctx config s :
  StorageType config = "" \/ StorageType config = "files" ->
  NewStorageServiceFromStorageConfig ctx config s
  = (Ok (NewLocalDiskStorageService (DataDir (LocalConfig_ config))), s).
Proof.
  unfold NewStorageServiceFromStorageConfig. cbv zeta.
  intros [-> | ->]; reflexivity.
Qed.

Lemma NewStorageService_default_witness :
  NewStorageServiceFromStorageConfig (X := Demo.extern) tt
    (Demo.config0 "" "" false) Demo.sys_nokeys
  = NewStorageServiceFromStorageConfig (X := Demo.extern) tt
      (Demo.config0 "files" "" false) Demo.sys_nokeys.
Proof.
  rewrite (NewStorageService_default (X := Demo.extern) tt
             (Demo.config0 "" "" false) Demo.sys_nokeys (or_introl eq_refl)).
  rewrite (NewStorageService_default (X := Demo.extern) tt
             (Demo.config0 "files" "" false) Demo.sys_nokeys
             (or_intror eq_refl)).
  reflexivity.
Defined.

(** The cases of the switch, by name. *)
Lemma StorageType_cases (t : string) :
  (t = "" \/ t = "files") \/
  t = "db" \/ t = "s3" \/ t = "redis" \/ t = "bigCache" \/
  (String.eqb t "" || String.eqb t "files" = false /\
   String.eqb t "db" = false /\ String.eqb t "s3" = false /\
   String.eqb t "redis" = false /\ String.eqb t "bigCache" = false).
Proof.
  destruct (String.eqb_spec t ""); [now left; left|].
  destruct (String.eqb_spec t "files"); [now left; right|].
  destruct (String.eqb_spec t "db"); [now right; left|].
  destruct (String.eqb_spec t "s3"); [now right; right; left|].
  destruct (String.eqb_spec t "redis"); [now right; right; right; left|].
  destruct (String.eqb_spec t "bigCache");
    [now right; right; right; right; left|].
  right; right; right; right; right. auto.
Qed.

(** X10: a shutdown goroutine is started for the local database only, and
    only once it has been opened: after
    [NewStorageServiceFromStorageConfig], the services waiting to be closed
    are the ones there were, plus the returned service when the storage
    type is "db" and the construction succeeded. *)
Theorem NewStorageService_closers {T : ExternTypes} {X : Extern}
    ctx config s :
  let out := NewStorageServiceFromStorageConfig ctx config s in
  closers (snd out) =
    closers s ++
    match fst out with
    | Ok ss => if String.eqb (StorageType config) "db" then [ss] else []
    | Err _ => []
    end.
Proof.
  intros out. subst out. unfold NewStorageServiceFromStorageConfig. cbv zeta.
  destruct (StorageType_cases (StorageType config))
    as [[E|E]|[E|[E|[E|[E|(E0 & E1 & E2 & E3 & E4)]]]]];
    [rewrite E..|rewrite E0, E1, E2, E3, E4]; simpl;
    go_unfold; simpl;
    repeat first
      [ destruct (NewDBStorageService _ _ _ _) as [[?|?] ?]
      | destruct (NewS3StorageService _ _ _) as [[?|?] ?]
      | destruct (NewRedisStorageService _ _ _) as [[?|?] ?]
      | destruct (NewBigCacheStorageService _ _ _) as [[?|?] ?] ];
    simpl; now rewrite ?app_nil_r.
Qed.

(** X11: with storage type "s3", "redis" or "bigCache" the object store is
    built first; when that fails, its error is returned, no cache is built
    on top, and it was the only call made. *)
Theorem NewStorageService_object_store_error {T : ExternTypes} {X : Extern}
    ctx config s e :
  In (StorageType config) ["s3"; "redis"; "bigCache"] ->
  fst (NewS3StorageService (S3Config_ config) (DiscardAfterTimeout config)
         (world s)) = Err e ->
  let out := NewStorageServiceFromStorageConfig ctx config s in
  fst out = Err e /\
  new_calls s (snd out) = [CallNewS3StorageService (Err e)] /\
  closers (snd out) = closers s.
Proof.
  intros Hin He out. subst out.
  unfold NewStorageServiceFromStorageConfig. cbv zeta.
  destruct Hin as [<-|[<-|[<-|[]]]]; simpl; go_unfold; simpl;
    destruct (NewS3StorageService _ _ _) as [r w]; simpl in He; subst r;
    simpl; (split; [reflexivity|]); (split; [|reflexivity]);
    now apply new_calls_app.
Qed.

Lemma NewStorageService_object_store_error_witness :
  let X := Faulty.extern
             {| Faulty.sign_fails := false; Faulty.pubkey_fails := false;
                Faulty.db_fails := false; Faulty.s3_fails := true;
                Faulty.redis_fails := false; Faulty.dial_fails := false;
                Faulty.caller_fails := false |} in
  fst (NewStorageServiceFromStorageConfig (X := X) tt
         (Demo.config0 "bigCache" "" false) Demo.sys0)
  = Err Faulty.broken.
Proof.
  intros X.
  refine (proj1 (NewStorageService_object_store_error (X := X) tt
                   (Demo.config0 "bigCache" "" false) Demo.sys0 Faulty.broken
                   _ eq_refl)).
  simpl. auto.
Defined.

(** X12: with storage type "redis" or "bigCache", when the object store is
    built and the cache over it cannot be, the cache's error is returned
    after exactly those two calls: the memory cache is not attempted, and
    the object store that was built is not registered for closing. *)
Theorem NewStorageService_cache_error {T : ExternTypes} {X : Extern}
    ctx config s inner w e :
  In (StorageType config) ["redis"; "bigCache"] ->
  NewS3StorageService (S3Config_ config) (DiscardAfterTimeout config) (world s)
    = (Ok inner, w) ->
  fst (NewRedisStorageService (RedisConfig_ config) inner w) = Err e ->
  let out := NewStorageServiceFromStorageConfig ctx config s in
  fst out = Err e /\
  new_calls s (snd out) =
    [CallNewS3StorageService (Ok inner); CallNewRedisStorageService (Err e)] /\
  closers (snd out) = closers s.
Proof.
  intros Hin Hs He out. subst out.
  unfold NewStorageServiceFromStorageConfig. cbv zeta.
  destruct Hin as [<-|[<-|[]]]; simpl; go_unfold; simpl;
    rewrite Hs; simpl;
    destruct (NewRedisStorageService _ _ _) as [r w']; simpl in He; subst r;
    simpl; (split; [reflexivity|]); (split; [|reflexivity]);
    apply new_calls_app; simpl; now rewrite <- app_assoc.
Qed.

Lemma NewStorageService_cache_error_witness :
  let X := Faulty.extern
             {| Faulty.sign_fails := false; Faulty.pubkey_fails := false;
                Faulty.db_fails := false; Faulty.s3_fails := false;
                Faulty.redis_fails := true; Faulty.dial_fails := false;
                Faulty.caller_fails := false |} in
  fst (NewStorageServiceFromStorageConfig (X := X) tt
         (Demo.config0 "bigCache" "" false) Demo.sys0)
  = Err Faulty.broken.
Proof.
  intros X.
  refine (proj1 (NewStorageService_cache_error (X := X) tt
                   (Demo.config0 "bigCache" "" false) Demo.sys0
                   Demo.mem_store Demo.disk0 Faulty.broken _ eq_refl eq_refl)).
  simpl. auto.
Defined.

(** ** lines 93-193: building the node *)

Lemma NewDASWithSeqInboxCaller_state {T : ExternTypes} {X : Extern}
    ctx config caller ss s :
  snd (NewDASWithSeqInboxCaller ctx config caller ss s)
  = snd (NewDAS_privKey config s).
Proof.
  unfold NewDASWithSeqInboxCaller. go_unfold.
  now destruct (NewDAS_privKey config s) as [[k|e] s1].
Qed.

Lemma NewDAS_privKey_log {T : ExternTypes} {X : Extern} config s :
  closers (snd (NewDAS_privKey config s)) = closers s /\
  exists l,
    calls (snd (NewDAS_privKey config s)) = calls s ++ l /\
    (forall c,
        In c l ->
        (exists r, c = CallReadKeysFromFile (KeyDir config) r) \/
        (exists r, c = CallGenerateAndStoreKeys (KeyDir config) r)) /\
    (forall dir r,
        In (CallGenerateAndStoreKeys dir r) l ->
        AllowGenerateKeys config = true /\ PrivKey config = "" /\
        exists e,
          fst (ReadKeysFromFile (KeyDir config) (world s)) = Err e /\
          os_IsNotExist e = true).
Proof.
  unfold NewDAS_privKey.
  destruct (PrivKey config) as [|ch rest] eqn:Ek; simpl.
  2:{ destruct (DecodeBase64BLSPrivateKey _); go_unfold; simpl;
        (split; [reflexivity|]); exists []; rewrite app_nil_r;
        repeat split; intros; contradiction. }
  go_unfold. simpl.
  destruct (ReadKeysFromFile (KeyDir config) (world s)) as [[[pk k]|e] w]
    eqn:Er; simpl.
  - split; [reflexivity|]. eexists. split; [reflexivity|]. split.
    + intros c [<-|[]]. eauto.
    + intros dir r [Hc|[]]. discriminate Hc.
  - destruct (os_IsNotExist e) eqn:En; simpl.
    + destruct (AllowGenerateKeys config) eqn:Ea; simpl.
      * destruct (GenerateAndStoreKeys (KeyDir config) w) as [[kp|e'] w'];
          simpl; (split; [reflexivity|]); rewrite <- app_assoc;
          (eexists; split; [reflexivity|]); (split;
            [intros c [<-|[<-|[]]]; eauto
            |intros dir r _; repeat split; eauto]).
      * split; [reflexivity|]. eexists. split; [reflexivity|]. split.
        -- intros c [<-|[]]. eauto.
        -- intros dir r [Hc|[]]. discriminate Hc.
    + split; [reflexivity|]. eexists. split; [reflexivity|]. split.
      * intros c [<-|[]]. eauto.
      * intros dir r [Hc|[]]. discriminate Hc.
Qed.

(** X13: [NewDASWithSeqInboxCaller] writes a new key pair only when it
    must and may: [GenerateAndStoreKeys] is called only if generating keys
    is allowed, no inline key is configured, and reading the key directory
    failed with a does-not-exist error; and it is called on the configured
    key directory. *)
Theorem NewDAS_generates_keys_only_if_allowed {T : ExternTypes} {X : Extern}
    ctx config caller ss s dir r :
  In (CallGenerateAndStoreKeys dir r)
    (new_calls s (snd (NewDASWithSeqInboxCaller ctx config caller ss s))) ->
  AllowGenerateKeys config = true /\
  PrivKey config = "" /\
  dir = KeyDir config /\
  exists e,
    fst (ReadKeysFromFile (KeyDir config) (world s)) = Err e /\
    os_IsNotExist e = true.
Proof.
  rewrite NewDASWithSeqInboxCaller_state.
  destruct (NewDAS_privKey_log config s) as (_ & l & Hl & Hk & Hg).
  rewrite (new_calls_app _ _ _ Hl). intros Hin.
  destruct (Hg _ _ Hin) as (Ha & Hp & He).
  repeat split; auto.
  destruct (Hk _ Hin) as [[r' Hc]|[r' Hc]]; [discriminate Hc|].
  now injection Hc.
Qed.

Lemma NewDAS_generates_keys_only_if_allowed_witness :
  AllowGenerateKeys (Demo.config0 "files" "" true) = true /\
  PrivKey (Demo.config0 "files" "" true) = "" /\
  "keys" = KeyDir (Demo.config0 "files" "" true) /\
  exists e,
    fst (ReadKeysFromFile (Extern := Demo.extern) "keys"
           (world Demo.sys_nokeys)) = Err e /\
    os_IsNotExist (Extern := Demo.extern) e = true.
Proof.
  apply (NewDAS_generates_keys_only_if_allowed (X := Demo.extern) tt
           (Demo.config0 "files" "" true) None Demo.mem_store
           Demo.sys_nokeys "keys" (Ok (7, 7)%Z)).
  vm_compute. right. left. reflexivity.
Defined.

(** [NewDAS], step by step. *)
Lemma NewDAS_run {T : ExternTypes} {X : Extern} ctx config s :
  NewDAS ctx config s =
    let (rs, s1) := NewStorageServiceFromStorageConfig ctx (DASConfig config) s in
    match rs with
    | Err e => (Err e, s1)
    | Ok ss =>
        if String.eqb (L1NodeURL config) "none" then
          NewDASWithSeqInboxCaller ctx (DASConfig config) None ss s1
        else
          let (rd, w) := ethclient_Dial (L1NodeURL config) (world s1) in
          let s2 := {| world := w;
                       calls := calls s1 ++ [CallDial (L1NodeURL config) rd];
                       closers := closers s1 |} in
          match rd with
          | Err e => (Err e, s2)
          | Ok l1client =>
              match OptionalAddressFromString (SequencerInboxAddress config) with
              | Err e => (Err e, s2)
              | Ok None =>
                  NewDASWithSeqInboxCaller ctx (DASConfig config) None ss s2
              | Ok (Some a) =>
                  match NewSequencerInboxCaller a l1client with
                  | Err e => (Err e, s2)
                  | Ok caller =>
                      NewDASWithSeqInboxCaller ctx (DASConfig config)
                        (Some caller) ss s2
                  end
              end
          end
    end.
Proof.
  unfold NewDAS, NewDASWithL1Info. go_unfold.
  destruct (NewStorageServiceFromStorageConfig ctx (DASConfig config) s)
    as [[ss|e] s1]; [|reflexivity].
  destruct (String.eqb (L1NodeURL config) "none"); [reflexivity|].
  destruct (ethclient_Dial (L1NodeURL config) (world s1)) as [[l1|e] w];
    [|reflexivity].
  destruct (OptionalAddressFromString _) as [[a|]|e]; try reflexivity.
  destruct (NewSequencerInboxCaller a l1); reflexivity.
Qed.

(** X14: the storage service is built before anything else.  When
    [NewStorageServiceFromStorageConfig] fails, [NewDAS] returns its error
    and stops where it stopped: no key is read or generated and the L1 node
    is not dialled. *)
Theorem NewDAS_storage_error {T : ExternTypes} {X : Extern} ctx config s e :
  fst (NewStorageServiceFromStorageConfig ctx (DASConfig config) s) = Err e ->
  NewDAS ctx config s
  = (Err e, snd (NewStorageServiceFromStorageConfig ctx (DASConfig config) s)).
Proof.
  intros He. rewrite NewDAS_run.
  destruct (NewStorageServiceFromStorageConfig ctx (DASConfig config) s)
    as [rs s1]. simpl in He |- *. now subst rs.
Qed.

Lemma NewDAS_storage_error_witness :
  let X := Faulty.extern
             {| Faulty.sign_fails := false; Faulty.pubkey_fails := false;
                Faulty.db_fails := true; Faulty.s3_fails := false;
                Faulty.redis_fails := false; Faulty.dial_fails := false;
                Faulty.caller_fails := false |} in
  NewDAS (X := X) tt (Faulty.daconfig "db" "http://l1" "inbox") Demo.sys0
  = (Err Faulty.broken,
     @Build_Sys Demo.types Demo.disk0
       [CallNewDBStorageService (Err Faulty.broken)] []).
Proof.
  intros X.
  exact (NewDAS_storage_error (X := X) tt
           (Faulty.daconfig "db" "http://l1" "inbox") Demo.sys0 Faulty.broken
           eq_refl).
Defined.

Lemma NewStorageService_log {T : ExternTypes} {X : Extern} ctx config s :
  exists l,
    calls (snd (NewStorageServiceFromStorageConfig ctx config s))
      = calls s ++ l /\
    forall c,
      In c l ->
      match c with
      | CallNewDBStorageService _ | CallNewS3StorageService _
      | CallNewRedisStorageService _ | CallNewBigCacheStorageService _ => True
      | _ => False
      end.
Proof.
  unfold NewStorageServiceFromStorageConfig. cbv zeta.
  destruct (StorageType_cases (StorageType config))
    as [[E|E]|[E|[E|[E|[E|(E0 & E1 & E2 & E3 & E4)]]]]];
    [rewrite E..|rewrite E0, E1, E2, E3, E4]; simpl;
    go_unfold; simpl;
    repeat first
      [ destruct (NewDBStorageService _ _ _ _) as [[?|?] ?]
      | destruct (NewS3StorageService _ _ _) as [[?|?] ?]
      | destruct (NewRedisStorageService _ _ _) as [[?|?] ?]
      | destruct (NewBigCacheStorageService _ _ _) as [[?|?] ?] ];
    simpl; rewrite <- ?app_assoc;
    try (exists []; split; [now rewrite app_nil_r|intros c []]);
    (eexists; split; [reflexivity|]); simpl; intros c Hc;
    repeat (destruct Hc as [<-|Hc]; [exact I|]); destruct Hc.
Qed.

(** X15: with L1 node URL "none", [NewDAS] never dials an L1 node, and the
    node it returns has no batch-poster verifier. *)
Theorem NewDAS_without_L1 {T : ExternTypes} {X : Extern} ctx config s :
  L1NodeURL config = "none" ->
  let out := NewDAS ctx config s in
  (forall url r, ~ In (CallDial url r) (new_calls s (snd out))) /\
  (forall d, fst out = Ok d -> bpVerifier d = None).
Proof.
  intros Hu out. subst out. rewrite NewDAS_run.
  destruct (NewStorageService_log ctx (DASConfig config) s) as (l1 & Hl1 & Hc1).
  destruct (NewStorageServiceFromStorageConfig ctx (DASConfig config) s)
    as [[ss|e] s1]; simpl in Hl1.
  - rewrite Hu. simpl. split.
    + intros url r. rewrite NewDASWithSeqInboxCaller_state.
      destruct (NewDAS_privKey_log (DASConfig config) s1)
        as (_ & l2 & Hl2 & Hc2 & _).
      rewrite Hl1, <- app_assoc in Hl2. rewrite (new_calls_app _ _ _ Hl2).
      intros [Hin|Hin]%in_app_or.
      * apply (Hc1 _ Hin).
      * destruct (Hc2 _ Hin) as [[r' Hx]|[r' Hx]]; discriminate Hx.
    + intros d Hd.
      apply NewDASWithSeqInboxCaller_ok in Hd
        as (pk & h & _ & _ & _ & _ & _ & _ & Hv).
      exact Hv.
  - simpl. split; [|discriminate].
    intros url r. rewrite (new_calls_app _ _ _ Hl1). intros Hin.
    apply (Hc1 _ Hin).
Qed.

Lemma NewDAS_without_L1_witness :
  option_map bpVerifier
    (match fst (NewDAS (X := Demo.extern) tt
                  (Faulty.daconfig "files" "none" "inbox") Demo.sys0) with
     | Ok d => Some d
     | Err _ => None
     end) = Some None.
Proof.
  destruct (NewDAS_without_L1 (X := Demo.extern) tt
              (Faulty.daconfig "files" "none" "inbox") Demo.sys0 eq_refl)
    as [_ Hv].
  destruct (fst (NewDAS (X := Demo.extern) tt
                   (Faulty.daconfig "files" "none" "inbox") Demo.sys0))
    as [d|e] eqn:E; [|discriminate E].
  simpl. now rewrite (Hv d eq_refl).
Defined.

(** X16: with any other L1 node URL the node is dialled right after the
    storage service is built, whether or not a sequencer inbox address is
    configured; when dialling fails, [NewDAS] returns that error, and no
    key has been read or generated. *)
Theorem NewDAS_dial_error {T : ExternTypes} {X : Extern}
    ctx config s ss s1 e :
  L1NodeURL config <> "none" ->
  NewStorageServiceFromStorageConfig ctx (DASConfig config) s = (Ok ss, s1) ->
  fst (ethclient_Dial (L1NodeURL config) (world s1)) = Err e ->
  let out := NewDAS ctx config s in
  fst out = Err e /\
  calls (snd out) = calls s1 ++ [CallDial (L1NodeURL config) (Err e)] /\
  closers (snd out) = closers s1.
Proof.
  intros Hu Hs He out. subst out. rewrite NewDAS_run, Hs.
  apply String.eqb_neq in Hu. rewrite Hu.
  destruct (ethclient_Dial (L1NodeURL config) (world s1)) as [rd w].
  simpl in He. subst rd. simpl. auto.
Qed.

Lemma NewDAS_dial_error_witness :
  let X := Faulty.extern
             {| Faulty.sign_fails := false; Faulty.pubkey_fails := false;
                Faulty.db_fails := false; Faulty.s3_fails := false;
                Faulty.redis_fails := false; Faulty.dial_fails := true;
                Faulty.caller_fails := false |} in
  fst (NewDAS (X := X) tt (Faulty.daconfig "files" "http://l1" "") Demo.sys0)
  = Err Faulty.broken.
Proof.
  intros X.
  refine (proj1 (NewDAS_dial_error (X := X) tt
                   (Faulty.daconfig "files" "http://l1" "") Demo.sys0
                   Demo.mem_store Demo.sys0 Faulty.broken _ eq_refl eq_refl)).
  discriminate.
Defined.

(** X17: a node returned by [NewDAS] keeps the storage configuration it was
    given and the storage service built from it, and it has no batch-poster
    verifier exactly when the L1 node URL is "none" or the sequencer inbox
    address parses to no address. *)
Theorem NewDAS_verifier {T : ExternTypes} {X : Extern} ctx cfg s d :
  fst (NewDAS ctx cfg s) = Ok d ->
  config d = DASConfig cfg /\
  fst (NewStorageServiceFromStorageConfig ctx (DASConfig cfg) s)
    = Ok (storageService d) /\
  (bpVerifier d = None <->
   L1NodeURL cfg = "none" \/
   OptionalAddressFromString (SequencerInboxAddress cfg) = Ok None).
Proof.
  rewrite NewDAS_run.
  destruct (NewStorageServiceFromStorageConfig ctx (DASConfig cfg) s)
    as [[ss|e] s1]; [|discriminate]. simpl.
  destruct (String.eqb_spec (L1NodeURL cfg) "none") as [Hu|Hu].
  { intros Hd.
    apply NewDASWithSeqInboxCaller_ok in Hd
      as (pk & h & _ & _ & _ & _ & Hc & Hs & Hv).
    rewrite Hc, Hs. repeat split; auto. }
  destruct (ethclient_Dial (L1NodeURL cfg) (world s1)) as [[l1|e] w];
    [|discriminate].
  destruct (OptionalAddressFromString (SequencerInboxAddress cfg))
    as [[a|]|e]; [| |discriminate].
  - destruct (NewSequencerInboxCaller a l1) as [caller|e]; [|discriminate].
    intros Hd.
    apply NewDASWithSeqInboxCaller_ok in Hd
      as (pk & h & _ & _ & _ & _ & Hc & Hs & Hv).
    rewrite Hc, Hs, Hv. repeat split; auto; try discriminate.
    intros [Hn|Hn]; [contradiction|discriminate].
  - intros Hd.
    apply NewDASWithSeqInboxCaller_ok in Hd
      as (pk & h & _ & _ & _ & _ & Hc & Hs & Hv).
    rewrite Hc, Hs. repeat split; auto.
Qed.

(** With an L1 node and an inbox address, the node checks batch posters. *)
Lemma NewDAS_verifier_witness :
  exists d,
    fst (NewDAS (X := Demo.extern) tt
           (Faulty.daconfig "files" "http://l1" "inbox") Demo.sys0) = Ok d /\
    bpVerifier d <> None /\
    config d = Demo.config0 "files" "" false.
Proof.
  eexists. split; [reflexivity|].
  destruct (NewDAS_verifier (X := Demo.extern) tt
              (Faulty.daconfig "files" "http://l1" "inbox") Demo.sys0 _
              eq_refl) as (Hc & _ & Hv).
  split; [|exact Hc].
  intros Hn. apply Hv in Hn as [Hn|Hn]; discriminate Hn.
Defined.

(** ** lines 115-127 *)

(** X18: [NewDASWithL1Info] binds the sequencer inbox before it looks for
    keys: when the binding fails, it returns that error and has done
    nothing; and any node it returns checks batch posters with a verifier
    made from that binding, over the storage service it was given. *)
Theorem NewDASWithL1Info_caller {T : ExternTypes} {X : Extern}
    ctx cfg l1client a ss s :
  (forall e,
      NewSequencerInboxCaller a l1client = Err e ->
      NewDASWithL1Info ctx cfg l1client a ss s = (Err e, s)) /\
  (forall d,
      fst (NewDASWithL1Info ctx cfg l1client a ss s) = Ok d ->
      exists caller,
        NewSequencerInboxCaller a l1client = Ok caller /\
        bpVerifier d = Some (NewBatchPosterVerifier caller) /\
        storageService d = ss /\ config d = cfg).
Proof.
  unfold NewDASWithL1Info. go_unfold. split.
  - intros e ->. reflexivity.
  - intros d. destruct (NewSequencerInboxCaller a l1client) as [caller|e];
      [|discriminate].
    intros Hd.
    apply NewDASWithSeqInboxCaller_ok in Hd
      as (pk & h & _ & _ & _ & _ & Hc & Hs & Hv).
    exists caller. auto.
Qed.

(** ** lines 243-282: when [Store] succeeds *)

(** X19: [Store] returns a certificate exactly when every step went
    through: there is no verifier or the recovered signer is reported to be
    a batch poster, [SignMessage] succeeds, and [Put] and then [Sync] on the
    storage service return nil. *)
Theorem Store_succeeds_iff {T : ExternTypes} {X : Extern}
    ctx message timeout sig st :
  let ss := storageService (self st) in
  let checked := snd (Store_authorize ctx message timeout sig st) in
  is_Err (fst (Store ctx message timeout sig st)) = false <->
  (bpVerifier (self st) = None \/
   exists v a,
     bpVerifier (self st) = Some v /\
     DasRecoverSigner message timeout sig = Ok a /\
     fst (IsBatchPoster v ctx a (world (sys st))) = Ok true) /\
  is_Err (SignMessage (privKey (self st))
            (SerializeSignableFields (Store_unsigned message timeout)))
    = false /\
  exists w1 w2,
    Put_ ss ctx message timeout (world (sys checked)) = (None, w1) /\
    Sync_ ss ctx w1 = (None, w2).
Proof.
  intros ss checked. subst ss checked.
  destruct (Store ctx message timeout sig st) as [r st'] eqn:E.
  apply Store_run in E as (ra & st1 & Ea & E). rewrite Ea. simpl.
  apply Store_authorize_run in Ea as (Hself & _ & Ea). rewrite Hself in E.
  assert (Hauth : ra = Ok tt <->
            (bpVerifier (self st) = None \/
             exists v a,
               bpVerifier (self st) = Some v /\
               DasRecoverSigner message timeout sig = Ok a /\
               fst (IsBatchPoster v ctx a (world (sys st))) = Ok true)).
  { destruct (bpVerifier (self st)) as [v|].
    - destruct (DasRecoverSigner message timeout sig) as [a|e0].
      + destruct (IsBatchPoster v ctx a (world (sys st))) as [rb w] eqn:Eb.
        destruct Ea as (_ & _ & ->). split.
        * intros Hr. right. exists v, a. rewrite Eb. simpl.
          destruct rb as [[|]|e0]; try discriminate Hr. auto.
        * intros [Hn|(v' & a' & Hv & Ha & Hb)]; [discriminate Hn|].
          injection Hv as <-. injection Ha as <-. rewrite Eb in Hb.
          simpl in Hb. now subst rb.
      + destruct Ea as [-> _]. split; [discriminate|].
        intros [Hn|(v' & a' & _ & Ha & _)]; discriminate.
    - destruct Ea as [-> _]. split; auto. }
  destruct ra as [[]|e0].
  2:{ destruct E as [-> _]. simpl. split; [discriminate|].
      intros (Ha & _). apply Hauth in Ha. discriminate Ha. }
  destruct (SignMessage _ _) as [s|e0].
  2:{ destruct E as [-> _]. simpl. split; [discriminate|].
      intros (_ & Hs & _). discriminate Hs. }
  cbv zeta in E.
  destruct (Put_ _ ctx message timeout _) as [[e1|] w2].
  - destruct E as (_ & _ & -> & _). simpl. split; [discriminate|].
    intros (_ & _ & w1 & w3 & Hp & _). discriminate Hp.
  - destruct (Sync_ _ ctx w2) as [rs w3] eqn:Ey.
    destruct E as (_ & _ & _ & _ & ->).
    destruct rs as [e2|]; simpl.
    + split; [discriminate|].
      intros (_ & _ & w1 & w4 & Hp & Hs). injection Hp as <-.
      rewrite Ey in Hs. discriminate Hs.
    + split; [|reflexivity]. intros _.
      split; [now apply Hauth|]. split; [reflexivity|].
      exists w2, w3. auto.
Qed.
